(** * ATtiny85 skate dryer: a shallow embedding of [main.c]

    The firmware is one translation unit: a handful of [volatile] globals,
    three interrupt handlers and a polling main loop.  The globals and the
    I/O registers become one [state] record, every C function becomes a
    computation in a small state monad [M], and the observable side effects
    (LED and fan writes, busy-wait delays, entering sleep) are appended to
    an output [trace] carried by the state.

    Integers are [Z] with the C conversions written out: [u8] is the
    truncation on assignment to a [uint8_t] object.  The [double] argument
    of [delay_ms] is a rational; the only floating point operation of the
    program is a division by the power of two [PRESCALE], which is exact in
    binary floating point for the durations used here.

    [panic] loops forever and has no caller; it is left out, and every
    function modelled here is total.

    Granularity: an interrupt handler runs to completion (the AVR core
    clears the global interrupt flag on entry), and the model lets handlers
    fire between two calls of the main loop's functions, not inside one. *)

From Stdlib Require Import ZArith List Bool Lia QArith Qminmax Lqa.
Import ListNotations.
Local Open Scope Z_scope.

(** ** Fixed-width arithmetic *)

(** Conversion to [uint8_t]. *)
Definition u8 (x : Z) : Z := x mod 256.

(** [_BV(bit)] of avr-libc: [1 << bit]. *)
Definition _BV (bit : Z) : Z := Z.shiftl 1 bit.

(** ** Configuration constants of [main.c] *)

Definition PRESCALE : Q := 128%Q.
Definition UI_MS : Q := 200%Q.
Definition DEBOUNCE_MS : Q := 100%Q.
Definition MIN_DELAY_MS : Q := 5%Q.
Definition IDLE_ITERATIONS : Z := 255.

Definition LED_PIN : Z := 0.
Definition FAN_PIN : Z := 1.

Definition TIMER_UI_COUNT : Z := 1.
Definition RUN_TIMERS_INIT : Z := 20.
Definition RUN_TIMERS_MULTIPLIER : Z := 20.
Definition RUN_LEVELS : Z := 3.

(** [run_state_t]: a C enum is an integer type and the program does
    arithmetic on it ([RUN_SHORT + (run_level - 1)]), so the enumerators are
    the integer constants the source gives them. *)
Definition RUN_NO_STATE : Z := 0.
Definition RUN_OFF : Z := 1.
Definition RUN_SHORT : Z := 2.
Definition RUN_MED : Z := 3.
Definition RUN_LONG : Z := 4.

(** [ui_state_t]: only ever assigned and switched on. *)
Inductive ui_state_t : Type :=
| UI_OFF
| UI_INPUT
| UI_TIMEOUT.

(** ** I/O registers *)

(** The registers of the ATtiny85 that [main.c] touches. *)
Inductive ioreg : Type :=
| PORTB | DDRB | CLKPR | TCCR0B | TIMSK | TCNT0
| TCCR1 | TCNT1 | GIMSK | SREG | MCUCR.

Definition ioreg_eqb (a b : ioreg) : bool :=
  match a, b with
  | PORTB, PORTB | DDRB, DDRB | CLKPR, CLKPR | TCCR0B, TCCR0B
  | TIMSK, TIMSK | TCNT0, TCNT0 | TCCR1, TCCR1 | TCNT1, TCNT1
  | GIMSK, GIMSK | SREG, SREG | MCUCR, MCUCR => true
  | _, _ => false
  end.

(** Bit positions, as in the device header of avr-libc (ATtiny25/45/85
    datasheet, register summary). *)
Module Bits.
Definition DDB0 : Z := 0.
Definition DDB1 : Z := 1.
Definition CLKPCE : Z := 7.
Definition CLKPS3 : Z := 3.
Definition CS02 : Z := 2.
Definition TOIE0 : Z := 1.
Definition TOIE1 : Z := 2.
Definition CS13 : Z := 3.
Definition CS12 : Z := 2.
Definition CS11 : Z := 1.
Definition INT0 : Z := 6.
Definition SREG_I : Z := 7.
Definition SM1 : Z := 4.
Definition SE : Z := 5.
Definition ISC01 : Z := 1.
End Bits.

(** ** Observable effects *)

Inductive event : Type :=
| EvLedOn
| EvLedOff
| EvFanOn
| EvFanOff
| EvDelay (ms : Q)   (* [_delay_ms(ms)] *)
| EvSleep.           (* [sleep_cpu()]: the core halts until an interrupt *)

(** ** Program state: the globals, the register file, the output trace *)

Record state : Type := mkState {
  inactive_iterations : Z;     (* volatile uint8_t *)
  current_run_state : Z;       (* volatile run_state_t *)
  desired_run_state : Z;       (* volatile run_state_t *)
  run_timers : Z;              (* volatile uint8_t *)
  ui_timers : Z;               (* volatile int8_t *)
  sleeping : bool;             (* volatile bool *)
  ui_state : ui_state_t;       (* volatile ui_state_t *)
  buffered_clicks : Z;         (* volatile uint8_t *)
  io : ioreg -> Z;
  trace : list event
}.

Definition set_inactive_iterations (v : Z) (s : state) : state :=
  mkState v (current_run_state s) (desired_run_state s) (run_timers s)
    (ui_timers s) (sleeping s) (ui_state s) (buffered_clicks s) (io s) (trace s).

Definition set_current_run_state (v : Z) (s : state) : state :=
  mkState (inactive_iterations s) v (desired_run_state s) (run_timers s)
    (ui_timers s) (sleeping s) (ui_state s) (buffered_clicks s) (io s) (trace s).

Definition set_desired_run_state (v : Z) (s : state) : state :=
  mkState (inactive_iterations s) (current_run_state s) v (run_timers s)
    (ui_timers s) (sleeping s) (ui_state s) (buffered_clicks s) (io s) (trace s).

Definition set_run_timers (v : Z) (s : state) : state :=
  mkState (inactive_iterations s) (current_run_state s) (desired_run_state s) v
    (ui_timers s) (sleeping s) (ui_state s) (buffered_clicks s) (io s) (trace s).

Definition set_ui_timers (v : Z) (s : state) : state :=
  mkState (inactive_iterations s) (current_run_state s) (desired_run_state s)
    (run_timers s) v (sleeping s) (ui_state s) (buffered_clicks s) (io s) (trace s).

Definition set_sleeping (v : bool) (s : state) : state :=
  mkState (inactive_iterations s) (current_run_state s) (desired_run_state s)
    (run_timers s) (ui_timers s) v (ui_state s) (buffered_clicks s) (io s) (trace s).

Definition set_ui_state (v : ui_state_t) (s : state) : state :=
  mkState (inactive_iterations s) (current_run_state s) (desired_run_state s)
    (run_timers s) (ui_timers s) (sleeping s) v (buffered_clicks s) (io s) (trace s).

Definition set_buffered_clicks (v : Z) (s : state) : state :=
  mkState (inactive_iterations s) (current_run_state s) (desired_run_state s)
    (run_timers s) (ui_timers s) (sleeping s) (ui_state s) v (io s) (trace s).

Definition set_io (r : ioreg) (v : Z) (s : state) : state :=
  mkState (inactive_iterations s) (current_run_state s) (desired_run_state s)
    (run_timers s) (ui_timers s) (sleeping s) (ui_state s) (buffered_clicks s)
    (fun r' => if ioreg_eqb r r' then v else io s r') (trace s).

Definition log (e : event) (s : state) : state :=
  mkState (inactive_iterations s) (current_run_state s) (desired_run_state s)
    (run_timers s) (ui_timers s) (sleeping s) (ui_state s) (buffered_clicks s)
    (io s) (trace s ++ [e]).

(** ** The state monad the C functions live in *)

Definition M (A : Type) : Type := state -> A * state.

Definition ret {A} (a : A) : M A := fun s => (a, s).

Definition bind {A B} (c : M A) (k : A -> M B) : M B :=
  fun s => let (a, s') := c s in k a s'.

Definition exec {A} (c : M A) (s : state) : state := snd (c s).
Definition eval {A} (c : M A) (s : state) : A := fst (c s).

Declare Scope c_scope.
Delimit Scope c_scope with C.
Notation "x <- c ;; k" := (bind c (fun x => k))
  (at level 61, c at next level, right associativity) : c_scope.
Notation "c ;; k" := (bind c (fun _ => k))
  (at level 61, right associativity) : c_scope.
Local Open Scope c_scope.

(** Reading a global, assigning one, reading and writing a register. *)
Definition load {A} (field : state -> A) : M A := fun s => (field s, s).
Definition store {A} (setter : A -> state -> state) (v : A) : M unit :=
  fun s => (tt, setter v s).
Definition inb (r : ioreg) : M Z := fun s => (io s r, s).
Definition outb (r : ioreg) (v : Z) : M unit := fun s => (tt, set_io r (u8 v) s).
Definition emit (e : event) : M unit := fun s => (tt, log e s).

(** [for (int i = 0; i < n; i++) body]: [body] does not touch [i]. *)
Fixpoint repeat_body (k : nat) (body : M unit) : M unit :=
  match k with
  | O => ret tt
  | S k' => body ;; repeat_body k' body
  end.

Definition for_upto (n : Z) (body : M unit) : M unit :=
  repeat_body (Z.to_nat n) body.

(** ** Utility functions *)

Definition Qgtb (x y : Q) : bool := negb (Qle_bool x y).

(** [_delay_ms] of avr-libc: busy-wait for [ms] milliseconds. *)
Definition _delay_ms (ms : Q) : M unit := emit (EvDelay ms).

(** The duration [delay_ms] hands to [_delay_ms]. *)
Definition delay_ms_arg (ms : Q) : Q :=
  if Qgtb (ms / PRESCALE) MIN_DELAY_MS then (ms / PRESCALE)%Q else MIN_DELAY_MS.

Definition delay_ms (ms : Q) : M unit := _delay_ms (delay_ms_arg ms).

Definition fan_off : M unit :=
  p <- inb PORTB ;; outb PORTB (Z.land p (Z.lnot (_BV FAN_PIN))) ;; emit EvFanOff.

Definition fan_on : M unit :=
  p <- inb PORTB ;; outb PORTB (Z.lor p (_BV FAN_PIN)) ;; emit EvFanOn.

Definition led_on : M unit :=
  p <- inb PORTB ;; outb PORTB (Z.lor p (_BV LED_PIN)) ;; emit EvLedOn.

Definition led_off : M unit :=
  p <- inb PORTB ;; outb PORTB (Z.land p (Z.lnot (_BV LED_PIN))) ;; emit EvLedOff.

(** The body of the [for] loop of [blink]. *)
Definition blink_body : M unit :=
  led_off ;;
  delay_ms UI_MS ;;
  led_on ;;
  delay_ms UI_MS ;;
  led_off.

Definition blink (n : Z) : M unit :=
  for_upto n blink_body.

(** ** Interrupt handlers *)

(** [ISR(TIMER1_OVF_vect)]: the fan timer overflowed. *)
Definition ISR_TIMER1_OVF_vect : M unit :=
  rt <- load run_timers ;;
  if rt >? 0 then
    (store set_run_timers (u8 (rt - 1)) ;;
     rt' <- load run_timers ;;
     if rt' =? 0 then store set_desired_run_state RUN_OFF else ret tt)
  else ret tt.

(** [ISR(TIMER0_OVF_vect)]: the input-window timer overflowed.  A positive
    [int8_t] decrements without leaving the type. *)
Definition ISR_TIMER0_OVF_vect : M unit :=
  ut <- load ui_timers ;;
  if ut >? 0 then store set_ui_timers (ut - 1) else ret tt.

(** [ISR(INT0_vect)]: the button edge. *)
Definition ISR_INT0_vect : M unit :=
  delay_ms DEBOUNCE_MS ;;
  sl <- load sleeping ;;
  if negb sl then
    (bc <- load buffered_clicks ;; store set_buffered_clicks (u8 (bc + 1)))
  else ret tt.

(** ** Initialisation *)

(** [sei()]: set the global interrupt flag. *)
Definition sei : M unit :=
  r <- inb SREG ;; outb SREG (Z.lor r (_BV Bits.SREG_I)).

Definition init : M unit :=
  store set_run_timers 0 ;;
  store set_ui_timers (-1) ;;
  store set_buffered_clicks 0 ;;
  store set_desired_run_state RUN_NO_STATE ;;
  store set_current_run_state RUN_OFF ;;
  outb DDRB 0 ;;
  d <- inb DDRB ;; outb DDRB (Z.lor d (Z.lor (_BV Bits.DDB0) (_BV Bits.DDB1))) ;;
  outb CLKPR (_BV Bits.CLKPCE) ;;
  outb CLKPR (_BV Bits.CLKPS3) ;;
  outb TCCR0B (_BV Bits.CS02) ;;
  outb TIMSK (_BV Bits.TOIE0) ;;
  outb TCNT0 0 ;;
  t <- inb TCCR1 ;;
  outb TCCR1 (Z.lor t (Z.lor (Z.lor (_BV Bits.CS13) (_BV Bits.CS12)) (_BV Bits.CS11))) ;;
  m <- inb TIMSK ;; outb TIMSK (Z.lor m (_BV Bits.TOIE1)) ;;
  outb TCNT1 0 ;;
  g <- inb GIMSK ;; outb GIMSK (Z.lor g (_BV Bits.INT0)) ;;
  r <- inb SREG ;; outb SREG (Z.lor r (_BV 7)) ;;
  sei.

(** ** Sleep *)

(** [sleep_cpu()]: the core halts in power-down mode.  The only wake-up
    source [init] enables that runs in power-down is the button interrupt,
    so execution resumes with its handler. *)
Definition sleep_cpu : M unit :=
  emit EvSleep ;; ISR_INT0_vect.

(** [sleep_mode()] of avr-libc: [sleep_enable(); sleep_cpu(); sleep_disable();]. *)
Definition sleep_mode : M unit :=
  m <- inb MCUCR ;; outb MCUCR (Z.lor m (_BV Bits.SE)) ;;
  sleep_cpu ;;
  m' <- inb MCUCR ;; outb MCUCR (Z.land m' (Z.lnot (_BV Bits.SE))).

Definition sleep : M unit :=
  outb MCUCR 0 ;;
  m <- inb MCUCR ;; outb MCUCR (Z.lor m (_BV Bits.SM1)) ;;
  m' <- inb MCUCR ;; outb MCUCR (Z.lor m' (_BV Bits.SE)) ;;
  store set_sleeping true ;;
  sleep_mode ;;
  m'' <- inb MCUCR ;; outb MCUCR (Z.lor m'' (_BV Bits.ISC01)) ;;
  store set_sleeping false.

(** ** The two state machines and the power policy *)

Definition ui_handler : M bool :=
  local_clicks <- load buffered_clicks ;;
  ut <- load ui_timers ;;
  let timeout := ut =? 0 in
  st <- load ui_state ;;
  match st with
  | UI_OFF =>
      if local_clicks >? 0 then
        (store set_ui_state UI_INPUT ;;
         led_on ;;
         outb TCNT0 0 ;;
         store set_ui_timers TIMER_UI_COUNT ;;
         ret true)
      else ret false
  | UI_INPUT =>
      if timeout then
        (store set_ui_state UI_TIMEOUT ;;
         store set_ui_timers (-1) ;;
         ret true)
      else ret false
  | UI_TIMEOUT =>
      led_off ;;
      active <-
        (if local_clicks >? 1 then
           (let run_level := u8 (local_clicks - 1) in
            let run_level := if run_level >=? RUN_LEVELS then RUN_LEVELS else run_level in
            (if run_level >? 0 then
               store set_desired_run_state (RUN_SHORT + (run_level - 1))
             else ret tt) ;;
            blink run_level ;;
            ret true)
         else
           (store set_desired_run_state RUN_OFF ;;
            ret false)) ;;
      store set_ui_state UI_OFF ;;
      store set_buffered_clicks 0 ;;
      ret active
  end.

Definition run_state_handler : M bool :=
  d <- load desired_run_state ;;
  if d =? RUN_NO_STATE then
    (c <- load current_run_state ;; ret (c >? RUN_OFF))
  else
    (d' <- load desired_run_state ;;
     store set_current_run_state d' ;;
     store set_desired_run_state RUN_NO_STATE ;;
     c <- load current_run_state ;;
     if c =? RUN_OFF then
       (store set_run_timers 0 ;;
        fan_off ;;
        ret false)
     else
       (fan_on ;;
        outb TCNT1 0 ;;
        c' <- load current_run_state ;;
        store set_run_timers
          (u8 (RUN_TIMERS_INIT + RUN_TIMERS_MULTIPLIER * (c' - RUN_SHORT))) ;;
        ret true)).

Definition maybe_sleep (active : bool) : M unit :=
  if active then store set_inactive_iterations 0
  else
    (i <- load inactive_iterations ;;
     store set_inactive_iterations (u8 (i + 1)) ;;
     i' <- load inactive_iterations ;;
     if i' >? IDLE_ITERATIONS then
       (sleep ;; store set_inactive_iterations 0)
     else ret tt).

Definition loop : M unit :=
  let active := false in
  a1 <- run_state_handler ;;
  let active := active || a1 in
  a2 <- ui_handler ;;
  let active := active || a2 in
  maybe_sleep active.

(** [main] up to the end of the [n]-th iteration of its [while (1)]. *)
Definition main_upto (n : nat) : M unit :=
  init ;;
  blink 5 ;;
  repeat_body n loop.

(** The globals as their initialisers leave them at reset, over a register
    file [regs]. *)
Definition power_on (regs : ioreg -> Z) : state :=
  mkState 0 RUN_OFF RUN_NO_STATE 0 (-1) false UI_OFF 0 regs [].

(** ** Observations on states and traces *)

(** The output lines, read back from [PORTB]. *)
Definition led_lit (s : state) : bool := Z.testbit (io s PORTB) LED_PIN.
Definition fan_running (s : state) : bool := Z.testbit (io s PORTB) FAN_PIN.

(** Value ranges of the C types of the globals. *)
Definition is_u8 (x : Z) : Prop := 0 <= x < 256.

(** The enumerators of [run_state_t]. *)
Definition valid_run_state (v : Z) : Prop :=
  v = RUN_NO_STATE \/ v = RUN_OFF \/ v = RUN_SHORT \/ v = RUN_MED \/ v = RUN_LONG.

(** The states in which the fan runs. *)
Definition on_state (v : Z) : Prop :=
  v = RUN_SHORT \/ v = RUN_MED \/ v = RUN_LONG.

(** Position of an on-state among the run levels: 0, 1, 2. *)
Definition level_index (v : Z) : Z := v - RUN_SHORT.

(** An acknowledgment blink lights the LED once. *)
Definition is_led_on (e : event) : bool :=
  match e with EvLedOn => true | _ => false end.

Definition is_sleep (e : event) : bool :=
  match e with EvSleep => true | _ => false end.

Definition led_on_count (t : list event) : Z :=
  Z.of_nat (length (filter is_led_on t)).

Definition sleep_count (t : list event) : Z :=
  Z.of_nat (length (filter is_sleep t)).

(** Blinks emitted between two states of one run. *)
Definition ack_blinks (pre post : state) : Z :=
  led_on_count (trace post) - led_on_count (trace pre).

(** What one pass through the body of [blink] writes to the trace. *)
Definition blink_once_events : list event :=
  [EvLedOff; EvDelay (delay_ms_arg UI_MS); EvLedOn;
   EvDelay (delay_ms_arg UI_MS); EvLedOff].

Fixpoint blink_events (k : nat) : list event :=
  match k with
  | O => []
  | S k' => blink_once_events ++ blink_events k'
  end.

(** ** Executions *)

(** One atomic action of the system: an interrupt handler, or one of the
    functions [main] and [loop] call.  [maybe_sleep] is offered any flag,
    which covers the flag [loop] computes. *)
Inductive step : state -> state -> Prop :=
| step_timer1 s : step s (exec ISR_TIMER1_OVF_vect s)
| step_timer0 s : step s (exec ISR_TIMER0_OVF_vect s)
| step_int0 s : step s (exec ISR_INT0_vect s)
| step_blink n s : step s (exec (blink n) s)
| step_run_state_handler s : step s (exec run_state_handler s)
| step_ui_handler s : step s (exec ui_handler s)
| step_maybe_sleep b s : step s (exec (maybe_sleep b) s).

(** The states after [init] has completed, from any memory contents. *)
Inductive reachable : state -> Prop :=
| reachable_init s0 : reachable (exec init s0)
| reachable_step s s' : reachable s -> step s s' -> reachable s'.

(** [k] button edges in a row. *)
Definition presses (k : nat) : M unit := repeat_body k ISR_INT0_vect.

(** [k] consecutive iterations of the main loop's power policy in which
    neither state machine reported activity. *)
Definition inactive_iterations_run (k : nat) : M unit :=
  repeat_body k (maybe_sleep false).

(** One input window up to the poll that resolves it.  [k1] presses arrive
    before the poll that opens the window, [k2] while the window timer
    runs, [k3] between the tick of generator A and the poll that notices
    it, [k4] between that poll and the resolving one. *)
Definition window_until_timeout (k1 k2 k3 k4 : nat) : M unit :=
  presses k1 ;;
  ui_handler ;;
  presses k2 ;;
  ISR_TIMER0_OVF_vect ;;
  presses k3 ;;
  ui_handler ;;
  presses k4.

(** The resolution the specification announces for [N] presses, read off
    the state [pre] before and the state [post] after the resolving poll. *)
Definition resolves_as (N : Z) (pre post : state) : Prop :=
  if N >? 1 then
    let run_level := Z.min (N - 1) 3 in
    desired_run_state post = RUN_SHORT + (run_level - 1) /\
    ack_blinks pre post = run_level
  else
    desired_run_state post = RUN_OFF /\ ack_blinks pre post = 0.

(** The input state machine at rest, awake, with no press pending. *)
Definition ui_idle (s : state) : Prop :=
  ui_state s = UI_OFF /\ buffered_clicks s = 0 /\ sleeping s = false.

(** A register file with every register cleared, and the state [main]
    starts its loop from over it. *)
Definition cleared_regs : ioreg -> Z := fun _ => 0.
Definition booted : state := exec (init ;; blink 5) (power_on cleared_regs).

(** The [run_level] that [ui_handler] computes from the clicks it read:
    one less than the clicks, stored in a [uint8_t], capped at
    [RUN_LEVELS]. *)
Definition run_level_of (clicks : Z) : Z :=
  let run_level := u8 (clicks - 1) in
  if run_level >=? RUN_LEVELS then RUN_LEVELS else run_level.

(** Two states that agree on every global variable. *)
Definition same_globals (s s' : state) : Prop :=
  inactive_iterations s' = inactive_iterations s /\
  current_run_state s' = current_run_state s /\
  desired_run_state s' = desired_run_state s /\
  run_timers s' = run_timers s /\
  ui_timers s' = ui_timers s /\
  sleeping s' = sleeping s /\
  ui_state s' = ui_state s /\
  buffered_clicks s' = buffered_clicks s.

(** The invariant of the run states: the current state is a real state,
    the request is an enumerator. *)
Definition run_state_inv (s : state) : Prop :=
  (current_run_state s = RUN_OFF \/ on_state (current_run_state s)) /\
  valid_run_state (desired_run_state s).

(** The values the input-window countdown takes. *)
Definition ui_timers_inv (s : state) : Prop :=
  ui_timers s = -1 \/ ui_timers s = 0 \/ ui_timers s = 1.

(** ** Whole-program runs and their invariants *)

(** Any number of atomic actions in a row. *)
Inductive steps : state -> state -> Prop :=
| steps_refl s : steps s s
| steps_step s s' s'' : steps s s' -> step s' s'' -> steps s s''.

(** [k] overflows of the fan timer in a row. *)
Definition fan_ticks (k : nat) : M unit := repeat_body k ISR_TIMER1_OVF_vect.

(** What [main] does before it enters its loop. *)
Definition boot : M unit := init ;; blink 5.

(** The fan follows the run state, and a running fan is always on its way
    to being switched off. *)
Definition fan_inv (s : state) : Prop :=
  run_state_inv s /\
  0 <= run_timers s <= RUN_TIMERS_INIT + RUN_TIMERS_MULTIPLIER * (RUN_LEVELS - 1) /\
  (current_run_state s = RUN_OFF -> run_timers s = 0) /\
  (on_state (current_run_state s) ->
   0 < run_timers s \/ desired_run_state s <> RUN_NO_STATE) /\
  (fan_running s = true <-> on_state (current_run_state s)).

(** The window countdown is armed exactly while the input window is open. *)
Definition ui_coupled (s : state) : Prop :=
  match ui_state s with
  | UI_INPUT => ui_timers s = 0 \/ ui_timers s = 1
  | UI_OFF | UI_TIMEOUT => ui_timers s = -1
  end.

(** The LED is dark whenever the input state machine is at rest. *)
Definition led_idle (s : state) : Prop :=
  ui_state s = UI_OFF -> led_lit s = false.

(** A busy-wait of exactly the floor [MIN_DELAY_MS]. *)
Definition delay_is_floor (e : event) : Prop :=
  match e with
  | EvDelay ms => ms = MIN_DELAY_MS
  | _ => True
  end.

(** The polls of the input state machine that find nothing to do. *)
Definition ui_quiet (s : state) : Prop :=
  (ui_state s = UI_OFF /\ buffered_clicks s <= 0) \/
  (ui_state s = UI_INPUT /\ ui_timers s <> 0).

(** The polls of the input state machine that report activity. *)
Definition ui_busy (s : state) : Prop :=
  (ui_state s = UI_OFF /\ 0 < buffered_clicks s) \/
  (ui_state s = UI_INPUT /\ ui_timers s = 0) \/
  (ui_state s = UI_TIMEOUT /\ 1 < buffered_clicks s).

(** ** Running the monad *)

Ltac run :=
  unfold exec, eval, bind, ret, load, store, inb, outb, emit; cbn.

(** Range side conditions at a closed state. *)
Ltac closed_range :=
  unfold is_u8; vm_compute; split; [discriminate | reflexivity].

Lemma exec_bind {A B} (c : M A) (k : A -> M B) s :
  exec (bind c k) s = exec (k (eval c s)) (exec c s).
Proof. unfold exec, eval, bind. destruct (c s); reflexivity. Qed.

Lemma eval_bind {A B} (c : M A) (k : A -> M B) s :
  eval (bind c k) s = eval (k (eval c s)) (exec c s).
Proof. unfold exec, eval, bind. destruct (c s); reflexivity. Qed.

Lemma u8_range x : is_u8 (u8 x).
Proof. unfold is_u8, u8. apply Z.mod_pos_bound. lia. Qed.

Lemma u8_small x : is_u8 x -> u8 x = x.
Proof. unfold is_u8, u8. intros H. apply Z.mod_small. exact H. Qed.

(** ** Tick generator B *)

(** What the fan timer's handler computes, in closed form. *)
Lemma ISR_TIMER1_closed s :
  is_u8 (run_timers s) ->
  exec ISR_TIMER1_OVF_vect s =
    if run_timers s >? 0 then
      if run_timers s =? 1 then
        set_desired_run_state RUN_OFF (set_run_timers 0 s)
      else set_run_timers (run_timers s - 1) s
    else s.
Proof.
  intros Hr. unfold ISR_TIMER1_OVF_vect. run.
  destruct (Z.gtb_spec (run_timers s) 0) as [Hpos | Hz]; cbn; [| reflexivity].
  rewrite u8_small by (unfold is_u8 in *; lia).
  destruct (Z.eqb_spec (run_timers s - 1) 0) as [E | E];
    destruct (Z.eqb_spec (run_timers s) 1) as [E1 | E1]; try lia; cbn.
  - rewrite E. reflexivity.
  - reflexivity.
Qed.

(** C6.  On an overflow of the fan timer the handler decrements [run_timers]
    only when it is positive, requests [RUN_OFF] exactly when that decrement
    reaches zero, writes no other value to [desired_run_state], and leaves
    every other global, every register and the trace as they were. *)
Theorem timer1_overflow_effect (s : state) :
  is_u8 (run_timers s) ->
  let s' := exec ISR_TIMER1_OVF_vect s in
  run_timers s' = (if run_timers s >? 0 then run_timers s - 1 else run_timers s) /\
  desired_run_state s' =
    (if (run_timers s >? 0) && (run_timers s - 1 =? 0) then RUN_OFF
     else desired_run_state s) /\
  (desired_run_state s' = desired_run_state s \/ desired_run_state s' = RUN_OFF) /\
  inactive_iterations s' = inactive_iterations s /\
  current_run_state s' = current_run_state s /\
  ui_timers s' = ui_timers s /\
  sleeping s' = sleeping s /\
  ui_state s' = ui_state s /\
  buffered_clicks s' = buffered_clicks s /\
  io s' = io s /\
  trace s' = trace s.
Proof.
  intros Hr s'. subst s'. rewrite (ISR_TIMER1_closed s Hr).
  destruct (Z.gtb_spec (run_timers s) 0) as [Hpos | Hz]; cbn.
  - destruct (Z.eqb_spec (run_timers s) 1) as [E1 | E1];
      destruct (Z.eqb_spec (run_timers s - 1) 0) as [E0 | E0]; try lia; cbn.
    + repeat split; try reflexivity; try lia; right; reflexivity.
    + repeat split; try reflexivity; left; reflexivity.
  - repeat split; try reflexivity; left; reflexivity.
Qed.

Lemma timer1_overflow_effect_witness :
  is_u8 (run_timers (set_run_timers 1 booted)) /\
  run_timers (exec ISR_TIMER1_OVF_vect (set_run_timers 1 booted)) = 0 /\
  desired_run_state (exec ISR_TIMER1_OVF_vect (set_run_timers 1 booted)) = RUN_OFF.
Proof.
  assert (H : is_u8 (run_timers (set_run_timers 1 booted))) by closed_range.
  split; [exact H |].
  destruct (timer1_overflow_effect (set_run_timers 1 booted) H) as (Ht & Hd & _).
  split; [exact Ht | exact Hd].
Defined.

(** ** Tick generator A *)

Lemma ISR_TIMER0_closed s :
  exec ISR_TIMER0_OVF_vect s =
    if ui_timers s >? 0 then set_ui_timers (ui_timers s - 1) s else s.
Proof.
  unfold ISR_TIMER0_OVF_vect. run.
  destruct (ui_timers s >? 0); reflexivity.
Qed.

(** ** The delay primitive *)

Lemma Qgtb_spec x y : reflect (y < x)%Q (Qgtb x y).
Proof.
  unfold Qgtb. destruct (Qle_bool x y) eqn:E; cbn; constructor.
  - intros H. apply Qle_bool_iff in E. lra.
  - destruct (Qlt_le_dec y x) as [L | L]; [exact L |].
    apply Qle_bool_iff in L. congruence.
Qed.

Lemma delay_ms_exec ms s : exec (delay_ms ms) s = log (EvDelay (delay_ms_arg ms)) s.
Proof. reflexivity. Qed.

(** C3, as amended.  Every delay request goes through the one conversion
    [ms / PRESCALE], but the result is floored at [MIN_DELAY_MS]: the wait
    is the larger of the two, it is the scaled duration exactly for
    requests of at least 640 ms, and the debounce and blink delays both
    wait the floor of 5 ms. *)
Theorem delay_ms_scaled_with_floor (ms : Q) (s : state) :
  exec (delay_ms ms) s = log (EvDelay (delay_ms_arg ms)) s /\
  (delay_ms_arg ms == Qmax (ms / PRESCALE) MIN_DELAY_MS)%Q /\
  ((delay_ms_arg ms == ms / PRESCALE)%Q <-> (640 <= ms)%Q) /\
  delay_ms_arg DEBOUNCE_MS = MIN_DELAY_MS /\
  delay_ms_arg UI_MS = MIN_DELAY_MS.
Proof.
  split; [reflexivity |].
  split; [| split; [| split; reflexivity]].
  - unfold delay_ms_arg.
    destruct (Qgtb_spec (ms / PRESCALE) MIN_DELAY_MS).
    + rewrite Q.max_l; [reflexivity | lra].
    + rewrite Q.max_r; [reflexivity | lra].
  - unfold delay_ms_arg, PRESCALE, MIN_DELAY_MS.
    destruct (Qgtb_spec (ms / 128) 5) as [q | q];
      unfold Qdiv in *; change (/ 128)%Q with (1 # 128)%Q in *.
    + split; intros; [lra | reflexivity].
    + split; intros; lra.
Qed.

(** C3, as stated, fails at the debounce delay: the handler asks for
    100 ms, [delay_ms] waits 5 ms, and 100 / 128 is not 5. *)
Lemma delay_ms_debounce_not_scaled :
  trace (exec (delay_ms DEBOUNCE_MS) booted) = trace booted ++ [EvDelay 5] /\
  ~ (delay_ms_arg DEBOUNCE_MS == DEBOUNCE_MS / PRESCALE)%Q.
Proof.
  split; [reflexivity |].
  vm_compute. discriminate.
Qed.

(** ** The button handler *)

Lemma ISR_INT0_closed s :
  exec ISR_INT0_vect s =
    if sleeping s then log (EvDelay (delay_ms_arg DEBOUNCE_MS)) s
    else set_buffered_clicks (u8 (buffered_clicks s + 1))
           (log (EvDelay (delay_ms_arg DEBOUNCE_MS)) s).
Proof.
  unfold ISR_INT0_vect, delay_ms, _delay_ms. run.
  destruct (sleeping s); reflexivity.
Qed.

Lemma u8_succ_neq x : u8 (x + 1) <> x.
Proof.
  unfold u8. intros H.
  assert (R : 0 <= x < 256) by (rewrite <- H; apply Z.mod_pos_bound; lia).
  destruct (Z.eq_dec x 255) as [-> | N]; [discriminate H |].
  rewrite Z.mod_small in H by lia. lia.
Qed.

(** C9, as amended.  The button handler waits the debounce delay and then
    adds one to [buffered_clicks] modulo 256 (a [uint8_t]: 255 is followed
    by 0, and below 255 the value grows by exactly one) if and only if
    [sleeping] is false; when [sleeping] is true the counter keeps its
    value.  It changes nothing else: not [ui_state], not the timers, not
    the run states, not a register (so neither output line), and the only
    event it emits is its delay. *)
Theorem int0_frame (s : state) :
  is_u8 (buffered_clicks s) ->
  let s' := exec ISR_INT0_vect s in
  buffered_clicks s' =
    (if sleeping s then buffered_clicks s else (buffered_clicks s + 1) mod 256) /\
  (buffered_clicks s' = (buffered_clicks s + 1) mod 256 <-> sleeping s = false) /\
  (buffered_clicks s' = buffered_clicks s <-> sleeping s = true) /\
  (buffered_clicks s < 255 ->
   (buffered_clicks s' = buffered_clicks s + 1 <-> sleeping s = false)) /\
  trace s' = trace s ++ [EvDelay (delay_ms_arg DEBOUNCE_MS)] /\
  ui_state s' = ui_state s /\
  ui_timers s' = ui_timers s /\
  run_timers s' = run_timers s /\
  current_run_state s' = current_run_state s /\
  desired_run_state s' = desired_run_state s /\
  inactive_iterations s' = inactive_iterations s /\
  sleeping s' = sleeping s /\
  io s' = io s /\
  led_lit s' = led_lit s /\
  fan_running s' = fan_running s.
Proof.
  intros Hr s'. subst s'. rewrite ISR_INT0_closed.
  pose proof (u8_succ_neq (buffered_clicks s)) as Hne. unfold u8 in *.
  destruct (sleeping s) eqn:Hs; cbn.
  - repeat split; try reflexivity; try congruence.
    intros E. lia.
  - repeat split; try reflexivity; try congruence.
    intros _. unfold is_u8 in Hr. rewrite Z.mod_small by lia. reflexivity.
Qed.

Lemma int0_frame_witness :
  is_u8 (buffered_clicks booted) /\
  buffered_clicks (exec ISR_INT0_vect booted) = 1 /\
  ui_state (exec ISR_INT0_vect booted) = UI_OFF.
Proof.
  assert (H : is_u8 (buffered_clicks booted)) by closed_range.
  split; [exact H |].
  destruct (int0_frame booted H) as (Hb & _ & _ & _ & _ & Hu & _).
  split; [exact Hb | exact Hu].
Defined.

(** ** Output lines *)

Lemma testbit_u8 x i : 0 <= i < 8 -> Z.testbit (u8 x) i = Z.testbit x i.
Proof.
  intros Hi. unfold u8. change 256 with (2 ^ 8).
  apply Z.mod_pow2_bits_low. lia.
Qed.

Lemma fan_on_exec s :
  exec fan_on s =
    log EvFanOn (set_io PORTB (u8 (Z.lor (io s PORTB) (_BV FAN_PIN))) s).
Proof. reflexivity. Qed.

Lemma fan_off_exec s :
  exec fan_off s =
    log EvFanOff (set_io PORTB (u8 (Z.land (io s PORTB) (Z.lnot (_BV FAN_PIN)))) s).
Proof. reflexivity. Qed.

Lemma led_on_exec s :
  exec led_on s =
    log EvLedOn (set_io PORTB (u8 (Z.lor (io s PORTB) (_BV LED_PIN))) s).
Proof. reflexivity. Qed.

Lemma led_off_exec s :
  exec led_off s =
    log EvLedOff (set_io PORTB (u8 (Z.land (io s PORTB) (Z.lnot (_BV LED_PIN)))) s).
Proof. reflexivity. Qed.

(** Setting or clearing one pin of [PORTB] and reading a pin back. *)
Lemma pin_after_set p pin i :
  0 <= pin < 8 -> 0 <= i < 8 ->
  Z.testbit (u8 (Z.lor p (_BV pin))) i = Z.testbit p i || (i =? pin).
Proof.
  intros Hp Hi. rewrite testbit_u8 by exact Hi.
  rewrite Z.lor_spec. unfold _BV. rewrite Z.shiftl_1_l.
  rewrite Z.pow2_bits_eqb by lia. rewrite (Z.eqb_sym pin i). reflexivity.
Qed.

Lemma pin_after_clear p pin i :
  0 <= pin < 8 -> 0 <= i < 8 ->
  Z.testbit (u8 (Z.land p (Z.lnot (_BV pin)))) i = Z.testbit p i && negb (i =? pin).
Proof.
  intros Hp Hi. rewrite testbit_u8 by exact Hi.
  rewrite Z.land_spec, Z.lnot_spec by lia. unfold _BV. rewrite Z.shiftl_1_l.
  rewrite Z.pow2_bits_eqb by lia. rewrite (Z.eqb_sym pin i). reflexivity.
Qed.

Lemma fan_on_pins s :
  fan_running (exec fan_on s) = true /\ led_lit (exec fan_on s) = led_lit s.
Proof.
  rewrite fan_on_exec. unfold fan_running, led_lit. cbn [io log set_io ioreg_eqb].
  rewrite !pin_after_set by (unfold FAN_PIN, LED_PIN; lia).
  cbn. split; [apply orb_true_r | apply orb_false_r].
Qed.

Lemma fan_off_pins s :
  fan_running (exec fan_off s) = false /\ led_lit (exec fan_off s) = led_lit s.
Proof.
  rewrite fan_off_exec. unfold fan_running, led_lit. cbn [io log set_io ioreg_eqb].
  rewrite !pin_after_clear by (unfold FAN_PIN, LED_PIN; lia).
  cbn. split; [apply andb_false_r | apply andb_true_r].
Qed.

Lemma led_on_pins s :
  led_lit (exec led_on s) = true /\ fan_running (exec led_on s) = fan_running s.
Proof.
  rewrite led_on_exec. unfold fan_running, led_lit. cbn [io log set_io ioreg_eqb].
  rewrite !pin_after_set by (unfold FAN_PIN, LED_PIN; lia).
  cbn. split; [apply orb_true_r | apply orb_false_r].
Qed.

Lemma led_off_pins s :
  led_lit (exec led_off s) = false /\ fan_running (exec led_off s) = fan_running s.
Proof.
  rewrite led_off_exec. unfold fan_running, led_lit. cbn [io log set_io ioreg_eqb].
  rewrite !pin_after_clear by (unfold FAN_PIN, LED_PIN; lia).
  cbn. split; [apply andb_false_r | apply andb_true_r].
Qed.

(** ** The run state machine *)

(** The run state machine in closed form: no transition, a transition to
    off, a transition to an on-state. *)
Lemma run_state_handler_closed s :
  run_state_handler s =
    if desired_run_state s =? RUN_NO_STATE then
      (current_run_state s >? RUN_OFF, s)
    else
      let s1 := set_desired_run_state RUN_NO_STATE
                  (set_current_run_state (desired_run_state s) s) in
      if desired_run_state s =? RUN_OFF then
        (false, exec fan_off (set_run_timers 0 s1))
      else
        (true,
         set_run_timers
           (u8 (RUN_TIMERS_INIT +
                RUN_TIMERS_MULTIPLIER * (desired_run_state s - RUN_SHORT)))
           (set_io TCNT1 (u8 0) (exec fan_on s1))).
Proof.
  unfold run_state_handler. run.
  destruct (desired_run_state s =? RUN_NO_STATE); [reflexivity |].
  destruct (desired_run_state s =? RUN_OFF); reflexivity.
Qed.

(** C4.  Polled with a pending request, the run state machine copies
    [desired_run_state] into [current_run_state] and clears the request to
    [RUN_NO_STATE].  For [RUN_OFF] it zeroes [run_timers], turns the fan
    off and reports inactive; otherwise it turns the fan on, reports active
    and loads [run_timers] with
    [RUN_TIMERS_INIT + RUN_TIMERS_MULTIPLIER * level_index], which is 20,
    40, 60 for Short, Med, Long (level index 0, 1, 2). *)
Theorem run_state_handler_transition (s : state) :
  desired_run_state s <> RUN_NO_STATE ->
  let d := desired_run_state s in
  let s' := exec run_state_handler s in
  let active := eval run_state_handler s in
  current_run_state s' = d /\
  desired_run_state s' = RUN_NO_STATE /\
  (d = RUN_OFF ->
   run_timers s' = 0 /\ fan_running s' = false /\ active = false) /\
  (d <> RUN_OFF ->
   fan_running s' = true /\ active = true /\
   run_timers s' = u8 (RUN_TIMERS_INIT + RUN_TIMERS_MULTIPLIER * level_index d)) /\
  (on_state d ->
   run_timers s' = RUN_TIMERS_INIT + RUN_TIMERS_MULTIPLIER * level_index d) /\
  (level_index RUN_SHORT = 0 /\ level_index RUN_MED = 1 /\ level_index RUN_LONG = 2) /\
  led_lit s' = led_lit s.
Proof.
  intros Hd d s' active. subst d s' active. unfold exec, eval.
  rewrite run_state_handler_closed.
  destruct (Z.eqb_spec (desired_run_state s) RUN_NO_STATE) as [E | _]; [contradiction |].
  cbv zeta.
  destruct (Z.eqb_spec (desired_run_state s) RUN_OFF) as [Eoff | Non]; cbn [fst snd].
  - pose proof (fan_off_pins
      (set_run_timers 0
         (set_desired_run_state RUN_NO_STATE
            (set_current_run_state (desired_run_state s) s)))) as [Hf Hl].
    repeat split; try reflexivity; try contradiction; try assumption.
    intros [H | [H | H]]; rewrite H in Eoff; discriminate Eoff.
  - pose proof (fan_on_pins
      (set_desired_run_state RUN_NO_STATE
         (set_current_run_state (desired_run_state s) s))) as [Hf Hl].
    repeat split; try reflexivity; try contradiction; try assumption.
    intros [H | [H | H]]; cbn; rewrite H; reflexivity.
Qed.

Lemma run_state_handler_transition_witness :
  desired_run_state (set_desired_run_state RUN_MED booted) <> RUN_NO_STATE /\
  current_run_state (exec run_state_handler (set_desired_run_state RUN_MED booted))
    = RUN_MED /\
  desired_run_state (exec run_state_handler (set_desired_run_state RUN_MED booted))
    = RUN_NO_STATE.
Proof.
  assert (H : desired_run_state (set_desired_run_state RUN_MED booted) <> RUN_NO_STATE)
    by (cbn; discriminate).
  split; [exact H |].
  destruct (run_state_handler_transition _ H) as (Hc & Hd & _).
  split; [exact Hc | exact Hd].
Defined.

(** C5.  Polled with [desired_run_state] at the sentinel, the run state
    machine changes nothing at all (so [current_run_state], [run_timers],
    the registers behind the fan and LED lines and the trace are as
    before), and it reports active exactly when [current_run_state] is one
    of Short, Med, Long.  A second poll right after any poll is such a
    no-op. *)
Theorem run_state_handler_sentinel_noop (s : state) :
  desired_run_state s = RUN_NO_STATE ->
  valid_run_state (current_run_state s) ->
  let s' := exec run_state_handler s in
  let active := eval run_state_handler s in
  s' = s /\
  current_run_state s' = current_run_state s /\
  run_timers s' = run_timers s /\
  io s' = io s /\
  fan_running s' = fan_running s /\
  led_lit s' = led_lit s /\
  trace s' = trace s /\
  (active = true <-> on_state (current_run_state s)) /\
  (current_run_state s <> RUN_NO_STATE ->
   (active = true <-> current_run_state s <> RUN_OFF)) /\
  exec run_state_handler s' = s'.
Proof.
  intros Hd Hv s' active. subst s' active.
  assert (Hrun : run_state_handler s = (current_run_state s >? RUN_OFF, s))
    by (rewrite run_state_handler_closed, Hd; reflexivity).
  unfold exec, eval. rewrite Hrun. cbn [fst snd]. rewrite Hrun. cbn [fst snd].
  repeat split; try reflexivity.
  - intros Hgt. apply Z.gtb_lt in Hgt. unfold on_state.
    destruct Hv as [E | [E | [E | [E | E]]]]; rewrite E in *; auto;
      unfold RUN_OFF, RUN_NO_STATE in *; lia.
  - intros [E | [E | E]]; rewrite E; reflexivity.
  - intros Hgt. apply Z.gtb_lt in Hgt. intros E. rewrite E in Hgt. lia.
  - intros Hoff.
    destruct Hv as [E | [E | [E | [E | E]]]]; rewrite E in *; try reflexivity;
      contradiction.
Qed.

Lemma run_state_handler_sentinel_noop_witness :
  desired_run_state booted = RUN_NO_STATE /\
  valid_run_state (current_run_state booted) /\
  exec run_state_handler booted = booted.
Proof.
  assert (H1 : desired_run_state booted = RUN_NO_STATE) by reflexivity.
  assert (H2 : valid_run_state (current_run_state booted))
    by (right; left; reflexivity).
  split; [exact H1 | split; [exact H2 |]].
  destruct (run_state_handler_sentinel_noop booted H1 H2) as (Hs & _).
  exact Hs.
Defined.

(** ** The acknowledgment blinks *)

Lemma repeat_body_succ k body s :
  exec (repeat_body (S k) body) s = exec (repeat_body k body) (exec body s).
Proof. cbn [repeat_body]. rewrite exec_bind. reflexivity. Qed.

Lemma same_globals_refl s : same_globals s s.
Proof. unfold same_globals. repeat split; reflexivity. Qed.

Lemma same_globals_trans s1 s2 s3 :
  same_globals s1 s2 -> same_globals s2 s3 -> same_globals s1 s3.
Proof.
  unfold same_globals. intros H1 H2.
  destruct H1 as (A1 & A2 & A3 & A4 & A5 & A6 & A7 & A8).
  destruct H2 as (B1 & B2 & B3 & B4 & B5 & B6 & B7 & B8).
  repeat split; congruence.
Qed.

Lemma blink_unfold n : blink n = repeat_body (Z.to_nat n) blink_body.
Proof. reflexivity. Qed.

Lemma blink_body_effect s :
  let s' := exec blink_body s in
  same_globals s s' /\
  trace s' = trace s ++ blink_once_events /\
  led_lit s' = false /\
  fan_running s' = fan_running s.
Proof.
  cbv zeta. unfold blink_body.
  rewrite !exec_bind.
  set (s1 := exec led_off s).
  set (s2 := exec (delay_ms UI_MS) s1).
  set (s3 := exec led_on s2).
  set (s4 := exec (delay_ms UI_MS) s3).
  destruct (led_off_pins s) as [_ F1].
  destruct (led_on_pins s2) as [_ F3].
  destruct (led_off_pins s4) as [L5 F5].
  split; [unfold same_globals; repeat split; reflexivity |].
  split; [| split; [exact L5 |]].
  - subst s4 s3 s2 s1. rewrite led_off_exec, delay_ms_exec, led_on_exec,
      delay_ms_exec, led_off_exec. cbn [trace log set_io].
    rewrite <- !app_assoc. reflexivity.
  - rewrite F5. subst s4. rewrite delay_ms_exec.
    change (fan_running (log (EvDelay (delay_ms_arg UI_MS)) s3)) with (fan_running s3).
    subst s3. rewrite F3. subst s2. rewrite delay_ms_exec.
    change (fan_running (log (EvDelay (delay_ms_arg UI_MS)) s1)) with (fan_running s1).
    exact F1.
Qed.

Lemma repeat_blink_effect k s :
  let s' := exec (repeat_body k blink_body) s in
  same_globals s s' /\
  trace s' = trace s ++ blink_events k /\
  led_lit s' = match k with O => led_lit s | S _ => false end /\
  fan_running s' = fan_running s.
Proof.
  cbv zeta. revert s. induction k as [| k IH]; intros s.
  - change (exec (repeat_body 0 blink_body) s) with s. rewrite app_nil_r.
    split; [apply same_globals_refl |].
    split; [reflexivity |]. split; reflexivity.
  - rewrite repeat_body_succ.
    destruct (blink_body_effect s) as (G1 & T1 & L1 & F1).
    destruct (IH (exec blink_body s)) as (G2 & T2 & L2 & F2).
    split; [exact (same_globals_trans _ _ _ G1 G2) |].
    split; [| split].
    + rewrite T2, T1. cbn [blink_events]. rewrite app_assoc. reflexivity.
    + rewrite L2, L1. destruct k; reflexivity.
    + congruence.
Qed.

Lemma led_on_count_app t1 t2 :
  led_on_count (t1 ++ t2) = led_on_count t1 + led_on_count t2.
Proof.
  unfold led_on_count. rewrite filter_app, length_app. lia.
Qed.

Lemma led_on_count_blink_events k : led_on_count (blink_events k) = Z.of_nat k.
Proof.
  induction k as [| k IH].
  - reflexivity.
  - cbn [blink_events]. rewrite led_on_count_app, IH.
    change (led_on_count blink_once_events) with 1. lia.
Qed.

(** ** The input state machine *)

Lemma ui_handler_off s :
  ui_state s = UI_OFF ->
  ui_handler s =
    if buffered_clicks s >? 0 then
      (true,
       set_ui_timers TIMER_UI_COUNT
         (set_io TCNT0 (u8 0) (exec led_on (set_ui_state UI_INPUT s))))
    else (false, s).
Proof.
  intros H. unfold ui_handler, bind, load. rewrite H.
  destruct (buffered_clicks s >? 0); reflexivity.
Qed.

Lemma ui_handler_input s :
  ui_state s = UI_INPUT ->
  ui_handler s =
    if ui_timers s =? 0 then
      (true, set_ui_timers (-1) (set_ui_state UI_TIMEOUT s))
    else (false, s).
Proof.
  intros H. unfold ui_handler, bind, load. rewrite H.
  destruct (ui_timers s =? 0); reflexivity.
Qed.

Lemma ui_handler_timeout s :
  ui_state s = UI_TIMEOUT ->
  ui_handler s =
    let s1 := exec led_off s in
    if buffered_clicks s >? 1 then
      let run_level := run_level_of (buffered_clicks s) in
      (true,
       set_buffered_clicks 0
         (set_ui_state UI_OFF
            (exec (blink run_level)
               (if run_level >? 0 then
                  set_desired_run_state (RUN_SHORT + (run_level - 1)) s1
                else s1))))
    else
      (false,
       set_buffered_clicks 0
         (set_ui_state UI_OFF (set_desired_run_state RUN_OFF s1))).
Proof.
  intros H. unfold ui_handler, bind, load. rewrite H.
  change (led_off s) with (tt, exec led_off s). cbv zeta.
  destruct (buffered_clicks s >? 1); [| reflexivity].
  fold (run_level_of (buffered_clicks s)).
  destruct (run_level_of (buffered_clicks s) >? 0).
  - unfold store, ret, exec.
    destruct (blink _ _) as [[] s2]. reflexivity.
  - unfold store, ret, exec.
    destruct (blink _ _) as [[] s2]. reflexivity.
Qed.

Lemma blink_effect n s :
  let s' := exec (blink n) s in
  same_globals s s' /\
  trace s' = trace s ++ blink_events (Z.to_nat n) /\
  led_lit s' = match Z.to_nat n with O => led_lit s | S _ => false end /\
  fan_running s' = fan_running s.
Proof. rewrite blink_unfold. apply repeat_blink_effect. Qed.

Lemma run_level_of_bounds c : 0 <= run_level_of c <= 3.
Proof.
  unfold run_level_of, RUN_LEVELS. cbv zeta.
  pose proof (u8_range (c - 1)) as R. unfold is_u8 in R.
  destruct (Z.geb_spec (u8 (c - 1)) 3); lia.
Qed.

Lemma run_level_of_min c :
  is_u8 c -> 1 < c -> run_level_of c = Z.min (c - 1) 3.
Proof.
  intros Hc H1. unfold run_level_of, RUN_LEVELS. cbv zeta.
  rewrite u8_small by (unfold is_u8 in *; lia).
  destruct (Z.geb_spec (c - 1) 3); lia.
Qed.

(** Everything the resolving poll does, in one place. *)
Lemma ui_handler_timeout_effect s :
  ui_state s = UI_TIMEOUT ->
  let s' := exec ui_handler s in
  let clicks := buffered_clicks s in
  ui_state s' = UI_OFF /\
  buffered_clicks s' = 0 /\
  led_lit s' = false /\
  fan_running s' = fan_running s /\
  trace s' =
    trace s ++ EvLedOff ::
      blink_events (if clicks >? 1 then Z.to_nat (run_level_of clicks) else 0) /\
  desired_run_state s' =
    (if clicks >? 1 then
       if run_level_of clicks >? 0 then RUN_SHORT + (run_level_of clicks - 1)
       else desired_run_state s
     else RUN_OFF) /\
  eval ui_handler s = (clicks >? 1) /\
  current_run_state s' = current_run_state s /\
  run_timers s' = run_timers s /\
  ui_timers s' = ui_timers s /\
  sleeping s' = sleeping s /\
  inactive_iterations s' = inactive_iterations s.
Proof.
  intros Ht. cbv zeta. unfold exec, eval.
  rewrite (ui_handler_timeout s Ht). cbv zeta.
  destruct (led_off_pins s) as [Loff Foff].
  assert (Toff : trace (exec led_off s) = trace s ++ [EvLedOff])
    by (rewrite led_off_exec; reflexivity).
  destruct (buffered_clicks s >? 1); cbn [fst snd].
  - set (rl := run_level_of (buffered_clicks s)).
    set (s2 := if rl >? 0
               then set_desired_run_state (RUN_SHORT + (rl - 1)) (exec led_off s)
               else exec led_off s).
    assert (Hs2 : led_lit s2 = false /\ fan_running s2 = fan_running s /\
                  trace s2 = trace s ++ [EvLedOff] /\
                  desired_run_state s2 =
                    (if rl >? 0 then RUN_SHORT + (rl - 1) else desired_run_state s) /\
                  current_run_state s2 = current_run_state s /\
                  run_timers s2 = run_timers s /\ ui_timers s2 = ui_timers s /\
                  sleeping s2 = sleeping s /\
                  inactive_iterations s2 = inactive_iterations s).
    { subst s2. destruct (rl >? 0); repeat split; try assumption; reflexivity. }
    destruct Hs2 as (L2 & F2 & T2 & D2 & C2 & R2 & U2 & S2 & I2).
    destruct (blink_effect rl s2) as (G & T & L & F).
    destruct G as (G1 & G2 & G3 & G4 & G5 & G6 & G7 & G8).
    cbn [ui_state buffered_clicks set_buffered_clicks set_ui_state
         desired_run_state current_run_state run_timers ui_timers sleeping
         inactive_iterations trace].
    change (led_lit (set_buffered_clicks 0 (set_ui_state UI_OFF (exec (blink rl) s2))))
      with (led_lit (exec (blink rl) s2)).
    change (fan_running (set_buffered_clicks 0 (set_ui_state UI_OFF (exec (blink rl) s2))))
      with (fan_running (exec (blink rl) s2)).
    repeat split; try congruence.
    + rewrite L. destruct (Z.to_nat rl); [exact L2 | reflexivity].
    + rewrite T, T2, <- app_assoc. reflexivity.
  - repeat split; try assumption; reflexivity.
Qed.

(** C8.  A poll in [UI_TIMEOUT] first turns the LED off, then, whatever
    [buffered_clicks] holds, clears it and returns with [ui_state] at
    [UI_OFF]: the machine is never in [UI_TIMEOUT] after such a poll. *)
Theorem timeout_never_persists (s : state) :
  ui_state s = UI_TIMEOUT ->
  let s' := exec ui_handler s in
  ui_state s' = UI_OFF /\
  ui_state s' <> UI_TIMEOUT /\
  buffered_clicks s' = 0 /\
  led_lit s' = false /\
  exists rest, trace s' = trace s ++ EvLedOff :: rest.
Proof.
  intros Ht. cbv zeta.
  destruct (ui_handler_timeout_effect s Ht) as (Hu & Hb & Hl & _ & Htr & _).
  split; [exact Hu |].
  split; [rewrite Hu; discriminate |].
  split; [exact Hb |].
  split; [exact Hl |].
  eexists. exact Htr.
Qed.

Lemma timeout_never_persists_witness :
  ui_state (set_buffered_clicks 3 (set_ui_state UI_TIMEOUT booted)) = UI_TIMEOUT /\
  ui_state (exec ui_handler (set_buffered_clicks 3 (set_ui_state UI_TIMEOUT booted)))
    = UI_OFF /\
  buffered_clicks
    (exec ui_handler (set_buffered_clicks 3 (set_ui_state UI_TIMEOUT booted))) = 0.
Proof.
  assert (H : ui_state (set_buffered_clicks 3 (set_ui_state UI_TIMEOUT booted))
              = UI_TIMEOUT) by reflexivity.
  split; [exact H |].
  destruct (timeout_never_persists _ H) as (Hu & _ & Hb & _).
  split; [exact Hu | exact Hb].
Defined.

(** ** Counting presses over an input window *)

Lemma presses_succ k s :
  exec (presses (S k)) s = exec (presses k) (exec ISR_INT0_vect s).
Proof. unfold presses. apply repeat_body_succ. Qed.

Lemma u8_add_succ x k : u8 (u8 (x + 1) + Z.of_nat k) = u8 (x + Z.of_nat (S k)).
Proof.
  unfold u8. rewrite Z.add_mod_idemp_l by lia.
  f_equal. lia.
Qed.

(** While the system is awake, [k] presses add [k] to the 8-bit click
    counter and touch nothing the input state machine looks at. *)
Lemma presses_effect k s :
  sleeping s = false ->
  is_u8 (buffered_clicks s) ->
  let s' := exec (presses k) s in
  buffered_clicks s' = u8 (buffered_clicks s + Z.of_nat k) /\
  sleeping s' = false /\
  ui_state s' = ui_state s /\
  ui_timers s' = ui_timers s.
Proof.
  cbv zeta. revert s. induction k as [| k IH]; intros s Hs Hr.
  - change (exec (presses 0) s) with s.
    rewrite Z.add_0_r, u8_small by exact Hr. repeat split. exact Hs.
  - rewrite presses_succ.
    assert (E : exec ISR_INT0_vect s =
                set_buffered_clicks (u8 (buffered_clicks s + 1))
                  (log (EvDelay (delay_ms_arg DEBOUNCE_MS)) s))
      by (rewrite ISR_INT0_closed, Hs; reflexivity).
    destruct (IH (exec ISR_INT0_vect s)) as (Hb & Hsl & Hu & Ht).
    + rewrite E. exact Hs.
    + rewrite E. apply u8_range.
    + rewrite Hb, Hsl, Hu, Ht, E. cbn [buffered_clicks set_buffered_clicks
        ui_state ui_timers log].
      rewrite u8_add_succ. repeat split.
Qed.

Lemma exec_seq {A B} (c : M A) (k : M B) s :
  exec (bind c (fun _ => k)) s = exec k (exec c s).
Proof. apply exec_bind. Qed.

(** The window, split as in [window_until_timeout]: the state in which the
    resolving poll finds the machine. *)
Lemma window_until_timeout_effect k1 k2 k3 k4 s :
  ui_idle s ->
  (1 <= k1)%nat ->
  (k1 + k2 + k3 + k4 <= 255)%nat ->
  let pre := exec (window_until_timeout k1 k2 k3 k4) s in
  ui_state pre = UI_TIMEOUT /\
  buffered_clicks pre = Z.of_nat (k1 + k2 + k3 + k4).
Proof.
  intros (Hu & Hb & Hs) H1 HN. cbv zeta.
  unfold window_until_timeout. rewrite !exec_seq.
  (* presses before the poll that opens the window *)
  set (s1 := exec (presses k1) s).
  destruct (presses_effect k1 s Hs) as (B1 & S1 & U1 & _);
    [rewrite Hb; unfold is_u8; lia |].
  fold s1 in B1, S1, U1. rewrite Hb, Z.add_0_l in B1.
  rewrite u8_small in B1 by (unfold is_u8; lia).
  (* the window opens *)
  set (s2 := exec ui_handler s1).
  assert (E2 : s2 = set_ui_timers TIMER_UI_COUNT
                      (set_io TCNT0 (u8 0) (exec led_on (set_ui_state UI_INPUT s1)))).
  { subst s2. unfold exec at 1. rewrite ui_handler_off by (rewrite U1; exact Hu).
    destruct (Z.gtb_spec (buffered_clicks s1) 0); [reflexivity | lia]. }
  assert (B2 : buffered_clicks s2 = Z.of_nat k1) by (rewrite E2; exact B1).
  assert (S2 : sleeping s2 = false) by (rewrite E2; exact S1).
  assert (U2 : ui_state s2 = UI_INPUT) by (rewrite E2; reflexivity).
  assert (T2 : ui_timers s2 = 1) by (rewrite E2; reflexivity).
  clearbody s2. clear E2.
  (* presses while the window timer runs *)
  set (s3 := exec (presses k2) s2).
  destruct (presses_effect k2 s2 S2) as (B3 & S3 & U3 & T3);
    [rewrite B2; unfold is_u8; lia |].
  fold s3 in B3, S3, U3, T3. rewrite B2 in B3.
  rewrite u8_small in B3 by (unfold is_u8; lia).
  (* generator A ticks *)
  set (s4 := exec ISR_TIMER0_OVF_vect s3).
  assert (E4 : s4 = set_ui_timers 0 s3).
  { subst s4. rewrite ISR_TIMER0_closed, T3, T2. reflexivity. }
  assert (B4 : buffered_clicks s4 = Z.of_nat k1 + Z.of_nat k2) by (rewrite E4; exact B3).
  assert (S4 : sleeping s4 = false) by (rewrite E4; exact S3).
  assert (U4 : ui_state s4 = UI_INPUT) by (rewrite E4, <- U2; exact U3).
  assert (T4 : ui_timers s4 = 0) by (rewrite E4; reflexivity).
  clearbody s4. clear E4.
  (* presses before the poll notices the tick *)
  set (s5 := exec (presses k3) s4).
  destruct (presses_effect k3 s4 S4) as (B5 & S5 & U5 & T5);
    [rewrite B4; unfold is_u8; lia |].
  fold s5 in B5, S5, U5, T5. rewrite B4 in B5.
  rewrite u8_small in B5 by (unfold is_u8; lia).
  (* the poll that notices the timeout *)
  set (s6 := exec ui_handler s5).
  assert (E6 : s6 = set_ui_timers (-1) (set_ui_state UI_TIMEOUT s5)).
  { subst s6. unfold exec at 1. rewrite ui_handler_input by (rewrite U5; exact U4).
    rewrite T5, T4. reflexivity. }
  assert (B6 : buffered_clicks s6 = Z.of_nat k1 + Z.of_nat k2 + Z.of_nat k3)
    by (rewrite E6; exact B5).
  assert (S6 : sleeping s6 = false) by (rewrite E6; exact S5).
  assert (U6 : ui_state s6 = UI_TIMEOUT) by (rewrite E6; reflexivity).
  clearbody s6. clear E6.
  (* presses before the resolving poll *)
  destruct (presses_effect k4 s6 S6) as (B7 & S7 & U7 & T7);
    [rewrite B6; unfold is_u8; lia |].
  rewrite B6 in B7. rewrite u8_small in B7 by (unfold is_u8; lia).
  split; [rewrite U7; exact U6 |].
  rewrite B7. lia.
Qed.

(** The resolving poll, for any click count the counter can hold. *)
Lemma ui_handler_resolves s :
  ui_state s = UI_TIMEOUT ->
  is_u8 (buffered_clicks s) ->
  resolves_as (buffered_clicks s) s (exec ui_handler s) /\
  eval ui_handler s = (buffered_clicks s >? 1).
Proof.
  intros Ht Hr.
  destruct (ui_handler_timeout_effect s Ht)
    as (_ & _ & _ & _ & Htr & Hd & He & _).
  split; [| exact He].
  unfold resolves_as, ack_blinks. rewrite Htr, Hd, led_on_count_app.
  destruct (Z.gtb_spec (buffered_clicks s) 1) as [Hgt | Hle].
  - cbv zeta. pose proof (run_level_of_min _ Hr Hgt) as Hm.
    pose proof (run_level_of_bounds (buffered_clicks s)) as Hbd.
    change (EvLedOff :: blink_events (Z.to_nat (run_level_of (buffered_clicks s))))
      with ([EvLedOff] ++ blink_events (Z.to_nat (run_level_of (buffered_clicks s)))).
    rewrite led_on_count_app, led_on_count_blink_events.
    change (led_on_count [EvLedOff]) with 0.
    rewrite <- Hm.
    destruct (Z.gtb_spec (run_level_of (buffered_clicks s)) 0); [| lia].
    split; [reflexivity | lia].
  - split; [reflexivity |].
    change (led_on_count (EvLedOff :: blink_events 0)) with 0. lia.
Qed.

(** C2, as amended.  For [N] presses with [1 <= N <= 255] arriving within
    one input window, however they are spread over it, the poll in
    [UI_TIMEOUT] finds [buffered_clicks = N] and, when [N > 1], requests
    [RUN_SHORT + (run_level - 1)] with [run_level = min (N - 1) 3] and emits
    [run_level] acknowledgment blinks (2 presses: Short, 3: Med, 4 to 255:
    Long); when [N <= 1] it requests [RUN_OFF] and emits no blink. *)
Theorem multi_click_resolution (k1 k2 k3 k4 : nat) (s : state) :
  ui_idle s ->
  (1 <= k1)%nat ->
  (k1 + k2 + k3 + k4 <= 255)%nat ->
  let N := Z.of_nat (k1 + k2 + k3 + k4) in
  let pre := exec (window_until_timeout k1 k2 k3 k4) s in
  let post := exec ui_handler pre in
  ui_state pre = UI_TIMEOUT /\
  buffered_clicks pre = N /\
  resolves_as N pre post /\
  (N = 2 -> desired_run_state post = RUN_SHORT /\ ack_blinks pre post = 1) /\
  (N = 3 -> desired_run_state post = RUN_MED /\ ack_blinks pre post = 2) /\
  (4 <= N -> desired_run_state post = RUN_LONG /\ ack_blinks pre post = 3) /\
  (N <= 1 -> desired_run_state post = RUN_OFF /\ ack_blinks pre post = 0).
Proof.
  intros Hidle H1 HN. cbv zeta.
  destruct (window_until_timeout_effect k1 k2 k3 k4 s Hidle H1 HN) as (Hu & Hb).
  set (pre := exec (window_until_timeout k1 k2 k3 k4) s) in *.
  assert (Hr : is_u8 (buffered_clicks pre)) by (rewrite Hb; unfold is_u8; lia).
  destruct (ui_handler_resolves pre Hu Hr) as (Hres & _).
  rewrite Hb in Hres.
  split; [exact Hu |]. split; [exact Hb |]. split; [exact Hres |].
  unfold resolves_as in Hres.
  destruct (Z.gtb_spec (Z.of_nat (k1 + k2 + k3 + k4)) 1) as [Hgt | Hle];
    cbv zeta in Hres; destruct Hres as (Hd & Ha); rewrite Hd, Ha.
  - repeat split; unfold RUN_SHORT, RUN_MED, RUN_LONG, RUN_OFF; lia.
  - repeat split; lia.
Qed.

Lemma multi_click_resolution_witness :
  ui_idle booted /\
  desired_run_state
    (exec ui_handler (exec (window_until_timeout 1 1 1 0) booted)) = RUN_MED /\
  ack_blinks (exec (window_until_timeout 1 1 1 0) booted)
    (exec ui_handler (exec (window_until_timeout 1 1 1 0) booted)) = 2.
Proof.
  assert (Hi : ui_idle booted) by (repeat split).
  split; [exact Hi |].
  assert (HN : (1 + 1 + 1 + 0 <= 255)%nat) by (cbn; lia).
  destruct (multi_click_resolution 1 1 1 0 booted Hi (le_n 1) HN)
    as (_ & _ & _ & _ & H3 & _).
  apply H3. reflexivity.
Defined.

(** C2, as stated, fails beyond the range of the 8-bit click counter: one
    press opens the window and 256 more arrive before it closes.  The
    counter has wrapped to 1, so the poll requests [RUN_OFF] and does not
    blink, where 257 presses were to give Long and three blinks. *)
Lemma multi_click_wraps_at_257 :
  ui_idle booted /\
  buffered_clicks (exec (window_until_timeout 1 256 0 0) booted) = 1 /\
  desired_run_state
    (exec ui_handler (exec (window_until_timeout 1 256 0 0) booted)) = RUN_OFF /\
  ~ resolves_as 257
      (exec (window_until_timeout 1 256 0 0) booted)
      (exec ui_handler (exec (window_until_timeout 1 256 0 0) booted)).
Proof.
  split; [repeat split |].
  split; [vm_compute; reflexivity |].
  split; [vm_compute; reflexivity |].
  unfold resolves_as. cbn [Z.gtb Z.compare Pos.compare Pos.compare_cont].
  intros [Hd _]. vm_compute in Hd. discriminate Hd.
Qed.

(** ** The power policy *)

Lemma maybe_sleep_active_closed s :
  exec (maybe_sleep true) s = set_inactive_iterations 0 s.
Proof. reflexivity. Qed.

(** The comparison with [IDLE_ITERATIONS] is made on the [uint8_t] counter
    after the increment, so it never holds and the branch that sleeps is
    dead. *)
Lemma maybe_sleep_inactive_closed s :
  exec (maybe_sleep false) s =
    set_inactive_iterations (u8 (inactive_iterations s + 1)) s.
Proof.
  unfold maybe_sleep, exec, bind, load, store.
  cbn [inactive_iterations set_inactive_iterations].
  pose proof (u8_range (inactive_iterations s + 1)) as R. unfold is_u8 in R.
  destruct (Z.gtb_spec (u8 (inactive_iterations s + 1)) IDLE_ITERATIONS) as [H | H].
  - unfold IDLE_ITERATIONS in H. lia.
  - reflexivity.
Qed.

Lemma inactive_iterations_run_succ k s :
  exec (inactive_iterations_run (S k)) s =
    exec (inactive_iterations_run k) (exec (maybe_sleep false) s).
Proof. unfold inactive_iterations_run. apply repeat_body_succ. Qed.

(** C1 (the code departs from the claim).  However many consecutive
    iterations report no activity, [maybe_sleep] never enters sleep: the
    trace gains no event (so no [EvSleep]), [sleeping] and every register
    keep their values, and the counter stays within 0..255, which never
    exceeds [IDLE_ITERATIONS]. *)
Theorem maybe_sleep_never_sleeps (k : nat) (s : state) :
  let s' := exec (inactive_iterations_run k) s in
  trace s' = trace s /\
  sleep_count (trace s') = sleep_count (trace s) /\
  sleeping s' = sleeping s /\
  io s' = io s /\
  ((0 < k)%nat -> 0 <= inactive_iterations s' <= IDLE_ITERATIONS).
Proof.
  cbv zeta. revert s. induction k as [| k IH]; intros s.
  - change (exec (inactive_iterations_run 0) s) with s.
    repeat split; lia.
  - rewrite inactive_iterations_run_succ, maybe_sleep_inactive_closed.
    set (s1 := set_inactive_iterations (u8 (inactive_iterations s + 1)) s).
    destruct (IH s1) as (Ht & Hc & Hs & Hio & Hr).
    assert (Hrange : 0 <= inactive_iterations (exec (inactive_iterations_run k) s1)
                     <= IDLE_ITERATIONS).
    { destruct k as [| k'].
      - change (exec (inactive_iterations_run 0) s1) with s1. subst s1.
        cbn [inactive_iterations set_inactive_iterations].
        pose proof (u8_range (inactive_iterations s + 1)) as R.
        unfold is_u8 in R. unfold IDLE_ITERATIONS. lia.
      - apply Hr. apply Nat.lt_0_succ. }
    rewrite Ht, Hs, Hio. repeat split; lia.
Qed.

Lemma maybe_sleep_never_sleeps_witness :
  inactive_iterations (exec (inactive_iterations_run 256) booted) = 0 /\
  sleep_count (trace (exec (inactive_iterations_run 256) booted)) = 0 /\
  0 <= inactive_iterations (exec (inactive_iterations_run 256) booted)
    <= IDLE_ITERATIONS.
Proof.
  split; [vm_compute; reflexivity |].
  destruct (maybe_sleep_never_sleeps 256 booted) as (_ & Hc & _ & _ & Hr).
  split; [rewrite Hc; vm_compute; reflexivity |].
  apply Hr. apply Nat.lt_0_succ.
Defined.

(** The failing input of C1: with the counter at the threshold and an
    inactive iteration, the increment wraps the counter to 0 and the
    function returns without having slept. *)
Lemma maybe_sleep_at_threshold :
  inactive_iterations (exec (maybe_sleep false) (set_inactive_iterations 255 booted)) = 0 /\
  trace (exec (maybe_sleep false) (set_inactive_iterations 255 booted)) = trace booted /\
  sleep_count (trace (exec (maybe_sleep false) (set_inactive_iterations 255 booted))) = 0.
Proof.
  split; [vm_compute; reflexivity |].
  split; vm_compute; reflexivity.
Qed.

(** ** Invariants of the executions *)

Lemma ISR_TIMER1_globals s :
  let s' := exec ISR_TIMER1_OVF_vect s in
  current_run_state s' = current_run_state s /\
  ui_timers s' = ui_timers s /\
  (desired_run_state s' = desired_run_state s \/ desired_run_state s' = RUN_OFF).
Proof.
  cbv zeta. unfold ISR_TIMER1_OVF_vect. run.
  destruct (run_timers s >? 0); cbn; [| auto].
  destruct (u8 (run_timers s - 1) =? 0); cbn; auto.
Qed.

Lemma ui_handler_globals s :
  let s' := exec ui_handler s in
  current_run_state s' = current_run_state s /\
  (ui_timers s' = ui_timers s \/ ui_timers s' = TIMER_UI_COUNT \/ ui_timers s' = -1) /\
  (desired_run_state s' = desired_run_state s \/
   desired_run_state s' = RUN_OFF \/ on_state (desired_run_state s')).
Proof.
  cbv zeta. destruct (ui_state s) eqn:Hu.
  - unfold exec. rewrite (ui_handler_off s Hu).
    destruct (buffered_clicks s >? 0); cbn; auto.
  - unfold exec. rewrite (ui_handler_input s Hu).
    destruct (ui_timers s =? 0); cbn; auto.
  - destruct (ui_handler_timeout_effect s Hu)
      as (_ & _ & _ & _ & _ & Hd & _ & Hc & _ & Ht & _).
    split; [exact Hc |]. split; [left; exact Ht |].
    rewrite Hd.
    destruct (buffered_clicks s >? 1); [| right; left; reflexivity].
    pose proof (run_level_of_bounds (buffered_clicks s)) as Hb.
    destruct (Z.gtb_spec (run_level_of (buffered_clicks s)) 0) as [Hpos | _];
      [| left; reflexivity].
    right; right. unfold on_state, RUN_SHORT, RUN_MED, RUN_LONG. lia.
Qed.

Lemma run_state_handler_globals s :
  let s' := exec run_state_handler s in
  ui_timers s' = ui_timers s /\
  desired_run_state s' = RUN_NO_STATE /\
  current_run_state s' =
    (if desired_run_state s =? RUN_NO_STATE then current_run_state s
     else desired_run_state s).
Proof.
  cbv zeta. unfold exec. rewrite run_state_handler_closed.
  destruct (Z.eqb_spec (desired_run_state s) RUN_NO_STATE) as [E | E]; cbn [snd].
  - rewrite E. repeat split.
  - cbv zeta. destruct (desired_run_state s =? RUN_OFF); repeat split.
Qed.

Lemma maybe_sleep_globals b s :
  let s' := exec (maybe_sleep b) s in
  current_run_state s' = current_run_state s /\
  desired_run_state s' = desired_run_state s /\
  ui_timers s' = ui_timers s.
Proof.
  cbv zeta. destruct b.
  - rewrite maybe_sleep_active_closed. repeat split.
  - rewrite maybe_sleep_inactive_closed. repeat split.
Qed.

Lemma init_globals s0 :
  let s := exec init s0 in
  current_run_state s = RUN_OFF /\
  desired_run_state s = RUN_NO_STATE /\
  ui_timers s = -1 /\
  run_timers s = 0 /\
  buffered_clicks s = 0.
Proof. cbv zeta. repeat split. Qed.

Lemma step_run_state_inv s s' :
  step s s' -> run_state_inv s -> run_state_inv s'.
Proof.
  unfold run_state_inv. intros Hstep [Hc Hd]. destruct Hstep.
  - destruct (ISR_TIMER1_globals s) as (Ec & _ & [Ed | Ed]); rewrite Ec, Ed.
    + split; assumption.
    + split; [assumption | right; left; reflexivity].
  - rewrite ISR_TIMER0_closed. destruct (ui_timers s >? 0); split; assumption.
  - rewrite ISR_INT0_closed. destruct (sleeping s); split; assumption.
  - destruct (blink_effect n s) as ((_ & Ec & Ed & _) & _). cbv zeta in Ec, Ed.
    rewrite Ec, Ed. split; assumption.
  - destruct (run_state_handler_globals s) as (_ & Ed & Ec). rewrite Ec, Ed.
    split; [| left; reflexivity].
    destruct (Z.eqb_spec (desired_run_state s) RUN_NO_STATE) as [E | E];
      [assumption |].
    destruct Hd as [H | [H | H]]; [contradiction | left; exact H | right; exact H].
  - destruct (ui_handler_globals s) as (Ec & _ & Ed). rewrite Ec.
    split; [assumption |].
    destruct Ed as [Ed | [Ed | Ed]].
    + rewrite Ed. assumption.
    + right; left; exact Ed.
    + right; right; exact Ed.
  - destruct (maybe_sleep_globals b s) as (Ec & Ed & _). rewrite Ec, Ed.
    split; assumption.
Qed.

Lemma reachable_run_state_inv s : reachable s -> run_state_inv s.
Proof.
  induction 1 as [s0 | s s' _ IH Hstep].
  - split; [left; reflexivity | left; reflexivity].
  - exact (step_run_state_inv s s' Hstep IH).
Qed.

Lemma step_ui_timers_inv s s' :
  step s s' -> ui_timers_inv s -> ui_timers_inv s'.
Proof.
  unfold ui_timers_inv. intros Hstep Hinv. destruct Hstep.
  - destruct (ISR_TIMER1_globals s) as (_ & Et & _). rewrite Et. exact Hinv.
  - rewrite ISR_TIMER0_closed.
    destruct (Z.gtb_spec (ui_timers s) 0); [| exact Hinv].
    cbn [ui_timers set_ui_timers]. lia.
  - rewrite ISR_INT0_closed. destruct (sleeping s); exact Hinv.
  - destruct (blink_effect n s) as ((_ & _ & _ & _ & Et & _) & _).
    cbv zeta in Et. rewrite Et. exact Hinv.
  - destruct (run_state_handler_globals s) as (Et & _). rewrite Et. exact Hinv.
  - destruct (ui_handler_globals s) as (_ & [Et | [Et | Et]] & _); rewrite Et.
    + exact Hinv.
    + right; right; reflexivity.
    + left; reflexivity.
  - destruct (maybe_sleep_globals b s) as (_ & _ & Et). rewrite Et. exact Hinv.
Qed.

Lemma reachable_ui_timers_inv s : reachable s -> ui_timers_inv s.
Proof.
  induction 1 as [s0 | s s' _ IH Hstep].
  - left; reflexivity.
  - exact (step_ui_timers_inv s s' Hstep IH).
Qed.

(** The run of [main] stays within [reachable]. *)
Lemma reachable_loop s : reachable s -> reachable (exec loop s).
Proof.
  intros Hr. unfold loop. rewrite !exec_bind.
  eapply reachable_step; [| apply step_maybe_sleep].
  eapply reachable_step; [| apply step_ui_handler].
  eapply reachable_step; [exact Hr | apply step_run_state_handler].
Qed.

Lemma reachable_repeat_loop n s :
  reachable s -> reachable (exec (repeat_body n loop) s).
Proof.
  revert s. induction n as [| n IH]; intros s Hr.
  - exact Hr.
  - rewrite repeat_body_succ. apply IH. apply reachable_loop. exact Hr.
Qed.

Lemma reachable_main n s0 : reachable (exec (main_upto n) s0).
Proof.
  unfold main_upto. rewrite !exec_seq.
  apply reachable_repeat_loop.
  eapply reachable_step; [apply reachable_init | apply step_blink].
Qed.

Lemma reachable_booted : reachable booted.
Proof.
  unfold booted. rewrite exec_seq.
  eapply reachable_step; [apply reachable_init | apply step_blink].
Qed.

(** C7.  In every state reached after [init], [current_run_state] is not
    the sentinel: it is [RUN_OFF] or one of Short, Med, Long.  The two
    writers of requests only ever leave [desired_run_state] as it was,
    write [RUN_OFF] (timer handler and input state machine) or write an
    on-level (input state machine), and [run_state_handler] copies the
    request into [current_run_state] only when it is not [RUN_NO_STATE]. *)
Theorem current_run_state_never_sentinel :
  (forall s, reachable s ->
     current_run_state s <> RUN_NO_STATE /\
     (current_run_state s = RUN_OFF \/ current_run_state s = RUN_SHORT \/
      current_run_state s = RUN_MED \/ current_run_state s = RUN_LONG)) /\
  (forall s,
     desired_run_state (exec ISR_TIMER1_OVF_vect s) = desired_run_state s \/
     desired_run_state (exec ISR_TIMER1_OVF_vect s) = RUN_OFF) /\
  (forall s,
     desired_run_state (exec ui_handler s) = desired_run_state s \/
     desired_run_state (exec ui_handler s) = RUN_OFF \/
     on_state (desired_run_state (exec ui_handler s))) /\
  (forall s,
     desired_run_state s = RUN_NO_STATE ->
     current_run_state (exec run_state_handler s) = current_run_state s) /\
  (forall s,
     desired_run_state s <> RUN_NO_STATE ->
     current_run_state (exec run_state_handler s) = desired_run_state s).
Proof.
  split; [| split; [| split; [| split]]].
  - intros s Hr. destruct (reachable_run_state_inv s Hr) as [Hc _].
    unfold on_state in Hc.
    split; [| tauto].
    destruct Hc as [E | [E | [E | E]]]; rewrite E; discriminate.
  - intros s. destruct (ISR_TIMER1_globals s) as (_ & _ & H). exact H.
  - intros s. destruct (ui_handler_globals s) as (_ & _ & H). exact H.
  - intros s Hd. destruct (run_state_handler_globals s) as (_ & _ & H).
    rewrite H, Hd. reflexivity.
  - intros s Hd. destruct (run_state_handler_globals s) as (_ & _ & H).
    rewrite H.
    destruct (Z.eqb_spec (desired_run_state s) RUN_NO_STATE); [contradiction |].
    reflexivity.
Qed.

Lemma current_run_state_never_sentinel_witness :
  reachable (exec (main_upto 3) (power_on cleared_regs)) /\
  current_run_state (exec (main_upto 3) (power_on cleared_regs)) <> RUN_NO_STATE.
Proof.
  assert (Hr : reachable (exec (main_upto 3) (power_on cleared_regs)))
    by apply reachable_main.
  split; [exact Hr |].
  destruct current_run_state_never_sentinel as (Hinv & _).
  destruct (Hinv _ Hr) as (Hne & _). exact Hne.
Defined.

(** C10.  In every state reached after [init], [ui_timers] is -1, 0 or 1.
    When a poll opens the input window it loads [TIMER_UI_COUNT = 1]; with
    no tick of generator A a further poll leaves the window open, and after
    one tick the counter is 0 and the next poll closes the window, setting
    [ui_timers] back to -1.  Generator A changes the counter only when it
    is positive. *)
Theorem ui_timers_three_values :
  (forall s, reachable s ->
     ui_timers s = -1 \/ ui_timers s = 0 \/ ui_timers s = 1) /\
  (forall s,
     ui_timers (exec ISR_TIMER0_OVF_vect s) =
       (if ui_timers s >? 0 then ui_timers s - 1 else ui_timers s)) /\
  (forall s,
     ui_state s = UI_OFF -> buffered_clicks s > 0 ->
     let opened := exec ui_handler s in
     let ticked := exec ISR_TIMER0_OVF_vect opened in
     ui_state opened = UI_INPUT /\
     ui_timers opened = TIMER_UI_COUNT /\
     exec ui_handler opened = opened /\
     ui_state ticked = UI_INPUT /\
     ui_timers ticked = 0 /\
     exec ISR_TIMER0_OVF_vect ticked = ticked /\
     ui_state (exec ui_handler ticked) = UI_TIMEOUT /\
     ui_timers (exec ui_handler ticked) = -1).
Proof.
  split; [| split].
  - intros s Hr. exact (reachable_ui_timers_inv s Hr).
  - intros s. rewrite ISR_TIMER0_closed.
    destruct (ui_timers s >? 0); reflexivity.
  - intros s Hu Hb. cbv zeta.
    assert (Eo : exec ui_handler s =
                 set_ui_timers TIMER_UI_COUNT
                   (set_io TCNT0 (u8 0) (exec led_on (set_ui_state UI_INPUT s)))).
    { unfold exec at 1. rewrite (ui_handler_off s Hu).
      destruct (Z.gtb_spec (buffered_clicks s) 0); [reflexivity | lia]. }
    set (opened := exec ui_handler s) in *.
    assert (Uo : ui_state opened = UI_INPUT) by (rewrite Eo; reflexivity).
    assert (To : ui_timers opened = 1) by (rewrite Eo; reflexivity).
    clearbody opened.
    assert (Et : exec ISR_TIMER0_OVF_vect opened = set_ui_timers 0 opened)
      by (rewrite ISR_TIMER0_closed, To; reflexivity).
    split; [exact Uo |]. split; [exact To |].
    split; [unfold exec; rewrite (ui_handler_input opened Uo), To; reflexivity |].
    rewrite Et.
    split; [exact Uo |]. split; [reflexivity |].
    split; [rewrite ISR_TIMER0_closed; reflexivity |].
    unfold exec.
    rewrite (ui_handler_input (set_ui_timers 0 opened) Uo).
    split; reflexivity.
Qed.

Lemma ui_timers_three_values_witness :
  reachable (exec ISR_INT0_vect booted) /\
  ui_state (exec ISR_INT0_vect booted) = UI_OFF /\
  buffered_clicks (exec ISR_INT0_vect booted) > 0 /\
  ui_timers_inv (exec ui_handler (exec ISR_INT0_vect booted)) /\
  ui_timers (exec ui_handler (exec ISR_INT0_vect booted)) = TIMER_UI_COUNT.
Proof.
  assert (Hr : reachable (exec ISR_INT0_vect booted))
    by (eapply reachable_step; [apply reachable_booted | apply step_int0]).
  assert (Hu : ui_state (exec ISR_INT0_vect booted) = UI_OFF) by reflexivity.
  assert (Hb : buffered_clicks (exec ISR_INT0_vect booted) > 0) by reflexivity.
  split; [exact Hr |]. split; [exact Hu |]. split; [exact Hb |].
  destruct ui_timers_three_values as (Hinv & _ & Hwin).
  split.
  - apply Hinv. eapply reachable_step; [exact Hr | apply step_ui_handler].
  - destruct (Hwin _ Hu Hb) as (_ & Ht & _). exact Ht.
Defined.

(** ** No execution ever sleeps *)

Lemma sleep_count_app t1 t2 :
  sleep_count (t1 ++ t2) = sleep_count t1 + sleep_count t2.
Proof.
  unfold sleep_count. rewrite filter_app, length_app. lia.
Qed.

Lemma sleep_count_blink_events k : sleep_count (blink_events k) = 0.
Proof.
  induction k as [| k IH].
  - reflexivity.
  - cbn [blink_events]. rewrite sleep_count_app, IH. reflexivity.
Qed.

Lemma ISR_TIMER1_trace s : trace (exec ISR_TIMER1_OVF_vect s) = trace s.
Proof.
  unfold ISR_TIMER1_OVF_vect. run.
  destruct (run_timers s >? 0); cbn; [| reflexivity].
  destruct (u8 (run_timers s - 1) =? 0); reflexivity.
Qed.

Lemma ui_handler_sleep_count s :
  sleep_count (trace (exec ui_handler s)) = sleep_count (trace s).
Proof.
  destruct (ui_state s) eqn:Hu.
  - unfold exec. rewrite (ui_handler_off s Hu).
    destruct (buffered_clicks s >? 0); [| reflexivity].
    cbn [snd trace set_ui_timers set_io]. rewrite led_on_exec.
    cbn [trace log set_io set_ui_state]. rewrite sleep_count_app.
    change (sleep_count [EvLedOn]) with 0. lia.
  - unfold exec. rewrite (ui_handler_input s Hu).
    destruct (ui_timers s =? 0); reflexivity.
  - destruct (ui_handler_timeout_effect s Hu) as (_ & _ & _ & _ & Htr & _).
    rewrite Htr, sleep_count_app.
    assert (E : forall k, sleep_count (EvLedOff :: blink_events k) = 0).
    { intros k. change (EvLedOff :: blink_events k)
        with ([EvLedOff] ++ blink_events k).
      rewrite sleep_count_app, sleep_count_blink_events. reflexivity. }
    rewrite E. lia.
Qed.

Lemma run_state_handler_sleep_count s :
  sleep_count (trace (exec run_state_handler s)) = sleep_count (trace s).
Proof.
  unfold exec. rewrite run_state_handler_closed.
  destruct (desired_run_state s =? RUN_NO_STATE); [reflexivity |].
  cbv zeta. destruct (desired_run_state s =? RUN_OFF); cbn [snd].
  - rewrite fan_off_exec. cbn [trace log set_io set_run_timers
      set_desired_run_state set_current_run_state].
    rewrite sleep_count_app. change (sleep_count [EvFanOff]) with 0. lia.
  - cbn [trace set_run_timers set_io]. rewrite fan_on_exec.
    cbn [trace log set_io set_desired_run_state set_current_run_state].
    rewrite sleep_count_app. change (sleep_count [EvFanOn]) with 0. lia.
Qed.

Lemma step_sleep_count s s' :
  step s s' -> sleep_count (trace s') = sleep_count (trace s).
Proof.
  intros Hstep. destruct Hstep.
  - rewrite ISR_TIMER1_trace. reflexivity.
  - rewrite ISR_TIMER0_closed. destruct (ui_timers s >? 0); reflexivity.
  - rewrite ISR_INT0_closed.
    destruct (sleeping s);
      cbn [trace log set_buffered_clicks]; rewrite sleep_count_app;
      change (sleep_count [EvDelay (delay_ms_arg DEBOUNCE_MS)]) with 0; lia.
  - destruct (blink_effect n s) as (_ & Ht & _). rewrite Ht, sleep_count_app,
      sleep_count_blink_events. lia.
  - apply run_state_handler_sleep_count.
  - apply ui_handler_sleep_count.
  - destruct b.
    + rewrite maybe_sleep_active_closed. reflexivity.
    + rewrite maybe_sleep_inactive_closed. reflexivity.
Qed.

(** Whatever the interrupts and the main loop do after [init], the core
    is never put to sleep: the trace of a reachable state holds no
    [EvSleep] that was not there before [init]. *)
Lemma firmware_never_sleeps s :
  reachable s ->
  exists s0, sleep_count (trace s) = sleep_count (trace s0).
Proof.
  induction 1 as [s0 | s s' _ [s0 IH] Hstep].
  - exists s0. reflexivity.
  - exists s0. rewrite (step_sleep_count s s' Hstep). exact IH.
Qed.

(** ** The scenarios of the specification, run through [loop] *)

(** Three presses in one window: Med is requested with two blinks, and the
    next iteration starts the fan with [run_timers = 20 + 20]. *)
Example three_presses_run_medium :
  let s := exec (presses 1 ;; loop ;; presses 2 ;; ISR_TIMER0_OVF_vect ;;
                 loop ;; loop) booted in
  desired_run_state s = RUN_MED /\
  led_on_count (trace s) - led_on_count (trace booted) = 1 + 2 /\
  current_run_state (exec loop s) = RUN_MED /\
  fan_running (exec loop s) = true /\
  run_timers (exec loop s) = 40.
Proof. vm_compute. repeat split. Qed.

(** One press and nothing more: off is requested and the fan stays off. *)
Example one_press_stays_off :
  let s := exec (presses 1 ;; loop ;; ISR_TIMER0_OVF_vect ;; loop ;; loop) booted in
  desired_run_state s = RUN_OFF /\
  ui_state s = UI_OFF /\
  fan_running (exec loop s) = false /\
  current_run_state (exec loop s) = RUN_OFF.
Proof. vm_compute. repeat split. Qed.

(** * Further properties of the firmware *)

(** ** [blink] *)

Lemma blink_events_floor k : Forall delay_is_floor (blink_events k).
Proof.
  induction k as [| k IH]; [constructor |].
  cbn [blink_events]. apply Forall_app. split; [| exact IH].
  repeat constructor.
Qed.

(** X1.  [blink n] blinks [max 0 n] times: it lights the LED that many times,
    waiting the 5 ms floor after every switch, and does nothing at all for
    [n <= 0]; for [n > 0] it leaves the LED dark.  It never touches the fan
    line nor any global variable. *)
Theorem blink_blinks_n_times (n : Z) (s : state) :
  let s' := exec (blink n) s in
  trace s' = trace s ++ blink_events (Z.to_nat n) /\
  led_on_count (trace s') = led_on_count (trace s) + Z.max 0 n /\
  sleep_count (trace s') = sleep_count (trace s) /\
  Forall delay_is_floor (blink_events (Z.to_nat n)) /\
  led_lit s' = (if 0 <? n then false else led_lit s) /\
  fan_running s' = fan_running s /\
  same_globals s s' /\
  (if 0 <? n then True else s' = s).
Proof.
  cbv zeta. destruct (blink_effect n s) as (G & T & L & F).
  split; [exact T |].
  split; [rewrite T, led_on_count_app, led_on_count_blink_events; lia |].
  split; [rewrite T, sleep_count_app, sleep_count_blink_events; lia |].
  split; [apply blink_events_floor |].
  split.
  { rewrite L. destruct (Z.ltb_spec 0 n) as [Hn | Hn].
    - destruct (Z.to_nat n) eqn:E; [lia | reflexivity].
    - replace (Z.to_nat n) with 0%nat by lia. reflexivity. }
  split; [exact F |]. split; [exact G |].
  destruct (Z.ltb_spec 0 n) as [Hn | Hn]; [exact I |].
  rewrite blink_unfold. replace (Z.to_nat n) with 0%nat by lia. reflexivity.
Qed.

(** ** The output helpers *)

(** X2.  Each of [fan_on], [fan_off], [led_on], [led_off] changes its own pin
    of [PORTB] and no other: reading back any pin [i] of the port gives the
    old level, except for the helper's pin, which is set or cleared.  The
    port stays an 8-bit value and no other register is written. *)
Theorem output_helpers_touch_one_pin (s : state) (i : Z) :
  0 <= i < 8 ->
  Z.testbit (io (exec fan_on s) PORTB) i = Z.testbit (io s PORTB) i || (i =? FAN_PIN) /\
  Z.testbit (io (exec fan_off s) PORTB) i =
    Z.testbit (io s PORTB) i && negb (i =? FAN_PIN) /\
  Z.testbit (io (exec led_on s) PORTB) i = Z.testbit (io s PORTB) i || (i =? LED_PIN) /\
  Z.testbit (io (exec led_off s) PORTB) i =
    Z.testbit (io s PORTB) i && negb (i =? LED_PIN) /\
  (is_u8 (io (exec fan_on s) PORTB) /\ is_u8 (io (exec fan_off s) PORTB) /\
   is_u8 (io (exec led_on s) PORTB) /\ is_u8 (io (exec led_off s) PORTB)) /\
  (forall r, r <> PORTB ->
     io (exec fan_on s) r = io s r /\ io (exec fan_off s) r = io s r /\
     io (exec led_on s) r = io s r /\ io (exec led_off s) r = io s r).
Proof.
  intros Hi.
  rewrite fan_on_exec, fan_off_exec, led_on_exec, led_off_exec.
  cbn [io log set_io ioreg_eqb].
  rewrite !pin_after_set, !pin_after_clear by (unfold FAN_PIN, LED_PIN; lia).
  repeat split; try apply u8_range.
  all: destruct r; try reflexivity; contradiction.
Qed.

Lemma output_helpers_touch_one_pin_witness :
  0 <= 0 < 8 /\
  Z.testbit (io (exec fan_on booted) PORTB) 0 = false /\
  Z.testbit (io (exec led_on booted) PORTB) 0 = true.
Proof.
  assert (H : 0 <= 0 < 8) by lia.
  split; [exact H |].
  destruct (output_helpers_touch_one_pin booted 0 H) as (Hf & _ & Hl & _).
  split; [exact Hf | exact Hl].
Defined.

(** ** [init] *)

(** X3.  From any memory and register contents, [init] resets the five globals
    it names and programs the peripherals: [DDRB], [CLKPR], [TCCR0B],
    [TIMSK] and both counters are overwritten ([DDRB] = pins 0 and 1 as
    outputs, [TIMSK] = both overflow interrupts), while [TCCR1], [GIMSK]
    and [SREG] only gain bits.  It does not touch [ui_state], [sleeping],
    [inactive_iterations], the output port, [MCUCR] or the trace. *)
Theorem init_effect (s0 : state) :
  let s := exec init s0 in
  (run_timers s = 0 /\ ui_timers s = -1 /\ buffered_clicks s = 0 /\
   desired_run_state s = RUN_NO_STATE /\ current_run_state s = RUN_OFF) /\
  (ui_state s = ui_state s0 /\ sleeping s = sleeping s0 /\
   inactive_iterations s = inactive_iterations s0 /\ trace s = trace s0 /\
   io s PORTB = io s0 PORTB /\ io s MCUCR = io s0 MCUCR) /\
  (io s DDRB = 3 /\ io s CLKPR = 8 /\ io s TCCR0B = 4 /\ io s TIMSK = 6 /\
   io s TCNT0 = 0 /\ io s TCNT1 = 0) /\
  (forall i, 0 <= i < 8 ->
     Z.testbit (io s GIMSK) i = Z.testbit (io s0 GIMSK) i || (i =? Bits.INT0) /\
     Z.testbit (io s SREG) i = Z.testbit (io s0 SREG) i || (i =? Bits.SREG_I) /\
     Z.testbit (io s TCCR1) i =
       Z.testbit (io s0 TCCR1) i ||
       ((i =? Bits.CS13) || (i =? Bits.CS12) || (i =? Bits.CS11))).
Proof.
  cbv zeta. split; [repeat split |]. split; [repeat split |].
  split; [repeat split |].
  intros i Hi.
  change (io (exec init s0) GIMSK) with (u8 (Z.lor (io s0 GIMSK) (_BV Bits.INT0))).
  change (io (exec init s0) SREG)
    with (u8 (Z.lor (u8 (Z.lor (io s0 SREG) (_BV 7))) (_BV Bits.SREG_I))).
  change (io (exec init s0) TCCR1)
    with (u8 (Z.lor (io s0 TCCR1)
                (Z.lor (Z.lor (_BV Bits.CS13) (_BV Bits.CS12)) (_BV Bits.CS11)))).
  rewrite !pin_after_set by (unfold Bits.INT0, Bits.SREG_I; lia).
  split; [reflexivity |]. split.
  - change 7 with Bits.SREG_I. destruct (i =? Bits.SREG_I), (Z.testbit (io s0 SREG) i);
      reflexivity.
  - rewrite testbit_u8 by exact Hi. rewrite !Z.lor_spec. unfold _BV.
    rewrite !Z.shiftl_1_l, !Z.pow2_bits_eqb by (unfold Bits.CS13, Bits.CS12, Bits.CS11; lia).
    rewrite (Z.eqb_sym Bits.CS13 i), (Z.eqb_sym Bits.CS12 i), (Z.eqb_sym Bits.CS11 i).
    reflexivity.
Qed.

(** ** [sleep] *)

(** X4.  Whenever [sleep] is entered it returns with [sleeping] cleared and
    with [MCUCR] holding the power-down mode bit and the falling-edge sense
    bit, the sleep-enable bit cleared again, whatever the register held
    before.  The button edge that wakes the core runs its handler while
    [sleeping] is set, so it costs one debounce delay and is not counted:
    [buffered_clicks] and every other global keep their values, and no
    other register is written. *)
Theorem sleep_effect (s : state) :
  let s' := exec sleep s in
  sleeping s' = false /\
  buffered_clicks s' = buffered_clicks s /\
  io s' MCUCR = Z.lor (_BV Bits.SM1) (_BV Bits.ISC01) /\
  (forall r, r <> MCUCR -> io s' r = io s r) /\
  trace s' = trace s ++ [EvSleep; EvDelay MIN_DELAY_MS] /\
  inactive_iterations s' = inactive_iterations s /\
  current_run_state s' = current_run_state s /\
  desired_run_state s' = desired_run_state s /\
  run_timers s' = run_timers s /\
  ui_timers s' = ui_timers s /\
  ui_state s' = ui_state s.
Proof.
  cbv zeta.
  split; [reflexivity |]. split; [reflexivity |]. split; [reflexivity |].
  split; [intros r Hr; destruct r; try reflexivity; contradiction |].
  split; [| repeat split].
  change (trace (exec sleep s))
    with ((trace s ++ [EvSleep]) ++ [EvDelay (delay_ms_arg DEBOUNCE_MS)]).
  rewrite <- app_assoc. reflexivity.
Qed.

(** ** When the input state machine acts *)

(** X5.  A poll of the input state machine leaves the whole state as it was
    exactly in two situations: at rest with no press buffered, and in the
    open window while the countdown has not reached zero; it then reports
    inactive.  It reports active exactly when it opens the window, when it
    notices the timeout, and when it resolves more than one click. *)
Theorem ui_handler_quiet_and_busy (s : state) :
  (exec ui_handler s = s <-> ui_quiet s) /\
  (ui_quiet s -> eval ui_handler s = false) /\
  (eval ui_handler s = true <-> ui_busy s).
Proof.
  unfold ui_quiet, ui_busy, exec, eval. destruct (ui_state s) eqn:Hu.
  - rewrite (ui_handler_off s Hu).
    destruct (Z.gtb_spec (buffered_clicks s) 0) as [Hb | Hb]; cbn [fst snd].
    + split; [| split].
      * split.
        -- intros E. apply (f_equal ui_state) in E. cbn in E. congruence.
        -- intros [[_ H] | [H _]]; [lia | discriminate H].
      * intros [[_ H] | [H _]]; [lia | discriminate H].
      * split; [intros _; left; split; [reflexivity | lia] | reflexivity].
    + split; [| split].
      * split; [intros _; left; split; [reflexivity | exact Hb] | reflexivity].
      * reflexivity.
      * split; [discriminate |].
        intros [[_ H] | [[H _] | [H _]]]; [lia | discriminate H | discriminate H].
  - rewrite (ui_handler_input s Hu).
    destruct (Z.eqb_spec (ui_timers s) 0) as [Ht | Ht]; cbn [fst snd].
    + split; [| split].
      * split.
        -- intros E. apply (f_equal ui_state) in E. cbn in E. congruence.
        -- intros [[H _] | [_ H]]; [discriminate H | contradiction].
      * intros [[H _] | [_ H]]; [discriminate H | contradiction].
      * split; [intros _; right; left; split; [reflexivity | exact Ht] | reflexivity].
    + split; [| split].
      * split; [intros _; right; split; [reflexivity | exact Ht] | reflexivity].
      * reflexivity.
      * split; [discriminate |].
        intros [[H _] | [[_ H] | [H _]]];
          [discriminate H | contradiction | discriminate H].
  - destruct (ui_handler_timeout_effect s Hu) as (Hs' & _ & _ & _ & _ & _ & He & _).
    unfold exec, eval in Hs', He. rewrite He.
    split; [| split].
    + split.
      * intros E. rewrite E in Hs'. congruence.
      * intros [[H _] | [H _]]; discriminate H.
    + intros [[H _] | [H _]]; discriminate H.
    + destruct (Z.gtb_spec (buffered_clicks s) 1) as [Hb | Hb].
      * split; [intros _; right; right; split; [reflexivity | lia] | reflexivity].
      * split; [discriminate |].
        intros [[H _] | [[H _] | [_ H]]]; [discriminate H | discriminate H | lia].
Qed.

Lemma ui_handler_quiet_and_busy_witness :
  ui_quiet booted /\ eval ui_handler booted = false.
Proof.
  assert (H : ui_quiet booted)
    by (left; split; [vm_compute; reflexivity | vm_compute; discriminate]).
  split; [exact H |].
  destruct (ui_handler_quiet_and_busy booted) as (_ & Hq & _).
  exact (Hq H).
Defined.

(** ** Frames of the handlers *)

Lemma ISR_TIMER1_frame s :
  let s' := exec ISR_TIMER1_OVF_vect s in
  ui_state s' = ui_state s /\ io s' = io s /\
  buffered_clicks s' = buffered_clicks s /\ sleeping s' = sleeping s /\
  inactive_iterations s' = inactive_iterations s.
Proof.
  cbv zeta. unfold ISR_TIMER1_OVF_vect. run.
  destruct (run_timers s >? 0); cbn; [| repeat split].
  destruct (u8 (run_timers s - 1) =? 0); cbn; repeat split.
Qed.

Lemma ui_handler_frame s :
  let s' := exec ui_handler s in
  run_timers s' = run_timers s /\
  fan_running s' = fan_running s /\
  sleeping s' = sleeping s /\
  inactive_iterations s' = inactive_iterations s.
Proof.
  cbv zeta. destruct (ui_state s) eqn:Hu.
  - unfold exec. rewrite (ui_handler_off s Hu).
    destruct (buffered_clicks s >? 0); cbn [snd]; [| repeat split].
    destruct (led_on_pins (set_ui_state UI_INPUT s)) as [_ F].
    repeat split. exact F.
  - unfold exec. rewrite (ui_handler_input s Hu).
    destruct (ui_timers s =? 0); repeat split.
  - destruct (ui_handler_timeout_effect s Hu)
      as (_ & _ & _ & F & _ & _ & _ & _ & R & _ & S & I).
    repeat split; assumption.
Qed.

Lemma run_state_handler_frame s :
  let s' := exec run_state_handler s in
  ui_state s' = ui_state s /\
  buffered_clicks s' = buffered_clicks s /\
  led_lit s' = led_lit s /\
  sleeping s' = sleeping s /\
  inactive_iterations s' = inactive_iterations s.
Proof.
  cbv zeta. unfold exec. rewrite run_state_handler_closed.
  destruct (desired_run_state s =? RUN_NO_STATE); [repeat split |].
  cbv zeta. destruct (desired_run_state s =? RUN_OFF); cbn [snd].
  - destruct (fan_off_pins (set_run_timers 0
        (set_desired_run_state RUN_NO_STATE
           (set_current_run_state (desired_run_state s) s)))) as [_ L].
    repeat split. exact L.
  - destruct (fan_on_pins
        (set_desired_run_state RUN_NO_STATE
           (set_current_run_state (desired_run_state s) s))) as [_ L].
    repeat split. exact L.
Qed.

Lemma steps_trans s1 s2 s3 : steps s1 s2 -> steps s2 s3 -> steps s1 s3.
Proof.
  intros H12 H23. induction H23 as [| s2 s s' _ IH Hst]; [exact H12 |].
  eapply steps_step; [apply IH; exact H12 | exact Hst].
Qed.

Lemma steps_invariant (P : state -> Prop) :
  (forall s s', step s s' -> P s -> P s') ->
  forall s s', steps s s' -> P s -> P s'.
Proof.
  intros Hpres s s' Hsteps. induction Hsteps as [| s s' s'' _ IH Hst]; intros Hp.
  - exact Hp.
  - exact (Hpres s' s'' Hst (IH Hp)).
Qed.

Lemma reachable_steps s : reachable s <-> exists s0, steps (exec init s0) s.
Proof.
  split.
  - induction 1 as [s0 | s s' _ [s0 IH] Hst].
    + exists s0. constructor.
    + exists s0. eapply steps_step; eassumption.
  - intros [s0 H]. remember (exec init s0) as si eqn:E.
    induction H as [| si s s' _ IH Hst]; subst.
    + constructor.
    + eapply reachable_step; [apply IH; reflexivity | exact Hst].
Qed.

(** ** The fan follows the run state *)

Lemma step_fan_inv s s' : step s s' -> fan_inv s -> fan_inv s'.
Proof.
  intros Hstep Hinv.
  pose proof Hinv as (Hrs & Hrt & Hoff & Hon & Hfan).
  assert (Hrs' : run_state_inv s') by exact (step_run_state_inv s s' Hstep Hrs).
  unfold fan_inv. split; [exact Hrs' |]. clear Hrs'.
  unfold RUN_TIMERS_INIT, RUN_TIMERS_MULTIPLIER, RUN_LEVELS in *.
  destruct Hstep.
  - (* fan timer *)
    destruct (ISR_TIMER1_globals s) as (Ec & _ & _).
    destruct (ISR_TIMER1_frame s) as (_ & Eio & _).
    cbv zeta in Ec, Eio.
    assert (Hu8 : is_u8 (run_timers s)) by (unfold is_u8; lia).
    unfold fan_running. rewrite Eio, Ec. fold (fan_running s).
    rewrite (ISR_TIMER1_closed s Hu8).
    destruct (Z.gtb_spec (run_timers s) 0) as [Hpos | Hz].
    + destruct (Z.eqb_spec (run_timers s) 1) as [E1 | E1];
        cbn [run_timers desired_run_state set_run_timers set_desired_run_state].
      * split; [lia |]. split; [intros H; apply Hoff in H; lia |].
        split; [intros _; right; discriminate | exact Hfan].
      * split; [lia |]. split; [intros H; apply Hoff in H; lia |].
        split; [intros _; left; lia | exact Hfan].
    + split; [exact Hrt |]. split; [exact Hoff |]. split; [exact Hon | exact Hfan].
  - rewrite ISR_TIMER0_closed. destruct (ui_timers s >? 0);
      (split; [exact Hrt |]; split; [exact Hoff |]; split; [exact Hon | exact Hfan]).
  - rewrite ISR_INT0_closed. destruct (sleeping s);
      (split; [exact Hrt |]; split; [exact Hoff |]; split; [exact Hon | exact Hfan]).
  - destruct (blink_effect n s) as ((_ & Ec & Ed & Er & _) & _ & _ & Ef).
    cbv zeta in Ec, Ed, Er, Ef. rewrite Ec, Ed, Er, Ef.
    split; [exact Hrt |]. split; [exact Hoff |]. split; [exact Hon | exact Hfan].
  - (* run state machine *)
    destruct Hrs as [_ Hd].
    unfold exec. rewrite run_state_handler_closed.
    destruct (Z.eqb_spec (desired_run_state s) RUN_NO_STATE) as [E | E]; cbn [snd].
    { split; [exact Hrt |]. split; [exact Hoff |]. split; [exact Hon | exact Hfan]. }
    cbv zeta.
    destruct (Z.eqb_spec (desired_run_state s) RUN_OFF) as [Eoff | Non]; cbn [snd].
    + destruct (fan_off_pins (set_run_timers 0
          (set_desired_run_state RUN_NO_STATE
             (set_current_run_state (desired_run_state s) s)))) as [F _].
      rewrite F, fan_off_exec.
      cbn [run_timers current_run_state desired_run_state log set_io
           set_run_timers set_desired_run_state set_current_run_state].
      rewrite Eoff.
      split; [lia |]. split; [reflexivity |].
      split; [intros [H | [H | H]]; discriminate H |].
      split; [discriminate | intros [H | [H | H]]; discriminate H].
    + destruct (fan_on_pins
          (set_desired_run_state RUN_NO_STATE
             (set_current_run_state (desired_run_state s) s))) as [F _].
      assert (Hond : on_state (desired_run_state s)).
      { destruct Hd as [H | [H | H]]; [contradiction | contradiction | exact H]. }
      unfold fan_running in F |- *.
      cbn [io set_run_timers set_io ioreg_eqb].
      rewrite F, fan_on_exec.
      cbn [run_timers current_run_state desired_run_state log set_io
           set_run_timers set_desired_run_state set_current_run_state].
      unfold RUN_TIMERS_INIT, RUN_TIMERS_MULTIPLIER.
      assert (Hv : u8 (20 + 20 * (desired_run_state s - RUN_SHORT)) = 20 \/
                   u8 (20 + 20 * (desired_run_state s - RUN_SHORT)) = 40 \/
                   u8 (20 + 20 * (desired_run_state s - RUN_SHORT)) = 60).
      { destruct Hond as [H | [H | H]]; rewrite H; auto. }
      split; [lia |].
      split; [intros H; destruct Hond as [H' | [H' | H']]; rewrite H' in H; discriminate H |].
      split; [intros _; left; lia |].
      split; [intros _; exact Hond | reflexivity].
  - (* input state machine *)
    destruct (ui_handler_globals s) as (Ec & _ & Ed).
    destruct (ui_handler_frame s) as (Er & Ef & _).
    cbv zeta in Ec, Ed, Er, Ef. rewrite Ec, Er, Ef.
    split; [exact Hrt |]. split; [exact Hoff |]. split; [| exact Hfan].
    intros Hc. destruct Ed as [Ed | [Ed | Ed]].
    + rewrite Ed. exact (Hon Hc).
    + right. rewrite Ed. discriminate.
    + right. destruct Ed as [H | [H | H]]; rewrite H; discriminate.
  - (* power policy *)
    destruct b.
    + rewrite maybe_sleep_active_closed.
      split; [exact Hrt |]. split; [exact Hoff |]. split; [exact Hon | exact Hfan].
    + rewrite maybe_sleep_inactive_closed.
      split; [exact Hrt |]. split; [exact Hoff |]. split; [exact Hon | exact Hfan].
Qed.

(** X6.  From a state in which the fan line agrees with the run state, every
    execution keeps it so: the fan is powered exactly while
    [current_run_state] is Short, Med or Long; [run_timers] stays within
    0..60 (the 8-bit countdown is never loaded with a wrapped value), is 0
    whenever the fan is off, and a running fan always has a live countdown
    or a request waiting to be consumed. *)
Theorem fan_follows_run_state (s0 s : state) :
  fan_inv s0 ->
  steps s0 s ->
  (fan_running s = true <-> on_state (current_run_state s)) /\
  0 <= run_timers s <= 60 /\
  (current_run_state s = RUN_OFF -> run_timers s = 0 /\ fan_running s = false) /\
  (on_state (current_run_state s) ->
   0 < run_timers s \/ desired_run_state s <> RUN_NO_STATE).
Proof.
  intros H0 Hsteps.
  destruct (steps_invariant fan_inv step_fan_inv s0 s Hsteps H0)
    as (_ & Hrt & Hoff & Hon & Hfan).
  split; [exact Hfan |]. split; [exact Hrt |]. split; [| exact Hon].
  intros Hc. split; [exact (Hoff Hc) |].
  destruct (fan_running s) eqn:E; [| reflexivity].
  destruct (proj1 Hfan eq_refl) as [H | [H | H]]; rewrite H in Hc; discriminate Hc.
Qed.

Lemma fan_inv_booted : fan_inv booted.
Proof.
  assert (Ec : current_run_state booted = RUN_OFF) by (vm_compute; reflexivity).
  assert (Ed : desired_run_state booted = RUN_NO_STATE) by (vm_compute; reflexivity).
  assert (Er : run_timers booted = 0) by (vm_compute; reflexivity).
  assert (Ef : fan_running booted = false) by (vm_compute; reflexivity).
  unfold fan_inv, run_state_inv. rewrite Ec, Ed, Er, Ef.
  split; [split; [left | left]; reflexivity |].
  split; [vm_compute; split; discriminate |].
  split; [intros _; reflexivity |].
  split; [intros [H | [H | H]]; discriminate H |].
  split; [discriminate | intros [H | [H | H]]; discriminate H].
Qed.

Lemma steps_loop s0 s : steps s0 s -> steps s0 (exec loop s).
Proof.
  intros H. unfold loop. rewrite !exec_bind.
  eapply steps_step; [| apply step_maybe_sleep].
  eapply steps_step; [| apply step_ui_handler].
  eapply steps_step; [exact H | apply step_run_state_handler].
Qed.

Lemma steps_press s0 s : steps s0 s -> steps s0 (exec ISR_INT0_vect s).
Proof. intros H. eapply steps_step; [exact H | apply step_int0]. Qed.

Lemma fan_follows_run_state_witness :
  fan_inv booted /\
  steps booted (exec loop (exec ISR_INT0_vect booted)) /\
  0 <= run_timers (exec loop (exec ISR_INT0_vect booted)) <= 60.
Proof.
  assert (Hs : steps booted (exec loop (exec ISR_INT0_vect booted)))
    by (apply steps_loop, steps_press, steps_refl).
  split; [exact fan_inv_booted |]. split; [exact Hs |].
  destruct (fan_follows_run_state booted _ fan_inv_booted Hs) as (_ & H & _).
  exact H.
Defined.

(** ** The input window never gets stuck *)

Lemma step_ui_coupled s s' : step s s' -> ui_coupled s -> ui_coupled s'.
Proof.
  unfold ui_coupled. intros Hstep Hinv. destruct Hstep.
  - destruct (ISR_TIMER1_globals s) as (_ & Et & _).
    destruct (ISR_TIMER1_frame s) as (Eu & _).
    cbv zeta in Et, Eu. rewrite Et, Eu. exact Hinv.
  - rewrite ISR_TIMER0_closed.
    destruct (Z.gtb_spec (ui_timers s) 0) as [Hpos | Hz]; [| exact Hinv].
    cbn [ui_state ui_timers set_ui_timers].
    destruct (ui_state s); lia.
  - rewrite ISR_INT0_closed. destruct (sleeping s); exact Hinv.
  - destruct (blink_effect n s) as ((_ & _ & _ & _ & Et & _ & Eu & _) & _).
    cbv zeta in Et, Eu. rewrite Et, Eu. exact Hinv.
  - destruct (run_state_handler_globals s) as (Et & _).
    destruct (run_state_handler_frame s) as (Eu & _).
    cbv zeta in Et, Eu. rewrite Et, Eu. exact Hinv.
  - unfold exec. destruct (ui_state s) eqn:Hu.
    + rewrite (ui_handler_off s Hu).
      destruct (buffered_clicks s >? 0); cbn [snd].
      * cbn. right. reflexivity.
      * rewrite Hu. exact Hinv.
    + rewrite (ui_handler_input s Hu).
      destruct (ui_timers s =? 0); cbn [snd].
      * reflexivity.
      * rewrite Hu. exact Hinv.
    + destruct (ui_handler_timeout_effect s Hu)
        as (Eu & _ & _ & _ & _ & _ & _ & _ & _ & Et & _).
      unfold exec in Eu, Et. rewrite Eu, Et. exact Hinv.
  - destruct b.
    + rewrite maybe_sleep_active_closed. exact Hinv.
    + rewrite maybe_sleep_inactive_closed. exact Hinv.
Qed.

Lemma step_led_idle s s' : step s s' -> led_idle s -> led_idle s'.
Proof.
  unfold led_idle. intros Hstep Hinv. destruct Hstep.
  - destruct (ISR_TIMER1_frame s) as (Eu & Eio & _). cbv zeta in Eu, Eio.
    unfold led_lit. rewrite Eu, Eio. exact Hinv.
  - rewrite ISR_TIMER0_closed. destruct (ui_timers s >? 0); exact Hinv.
  - rewrite ISR_INT0_closed. destruct (sleeping s); exact Hinv.
  - destruct (blink_effect n s) as ((_ & _ & _ & _ & _ & _ & Eu & _) & _ & El & _).
    cbv zeta in Eu, El. rewrite Eu, El. intros H.
    destruct (Z.to_nat n); [exact (Hinv H) | reflexivity].
  - destruct (run_state_handler_frame s) as (Eu & _ & El & _).
    cbv zeta in Eu, El. rewrite Eu, El. exact Hinv.
  - unfold exec. destruct (ui_state s) eqn:Hu.
    + rewrite (ui_handler_off s Hu).
      destruct (buffered_clicks s >? 0); cbn [snd].
      * cbn [ui_state set_ui_timers set_io]. rewrite led_on_exec.
        cbn [ui_state log set_io set_ui_state]. discriminate.
      * intros _. exact (Hinv eq_refl).
    + rewrite (ui_handler_input s Hu).
      destruct (ui_timers s =? 0); cbn [snd].
      * discriminate.
      * rewrite Hu. discriminate.
    + destruct (ui_handler_timeout_effect s Hu) as (_ & _ & El & _).
      unfold exec in El. intros _. exact El.
  - destruct b.
    + rewrite maybe_sleep_active_closed. exact Hinv.
    + rewrite maybe_sleep_inactive_closed. exact Hinv.
Qed.

(** X7.  From a state in which the window countdown matches the UI state and
    the LED is dark at rest, every execution keeps both: [ui_timers] is 0
    or 1 while the window is open and -1 otherwise, and the LED is dark
    whenever [ui_state] is [UI_OFF].  So an open window is never stuck: one
    tick of generator A followed by one poll always closes it, and ticks
    outside the window change nothing. *)
Theorem input_window_never_stuck (s0 s : state) :
  ui_coupled s0 ->
  led_idle s0 ->
  steps s0 s ->
  ui_coupled s /\
  led_idle s /\
  (ui_state s = UI_INPUT ->
   ui_state (exec ui_handler (exec ISR_TIMER0_OVF_vect s)) = UI_TIMEOUT) /\
  (ui_state s <> UI_INPUT -> exec ISR_TIMER0_OVF_vect s = s).
Proof.
  intros Hc0 Hl0 Hsteps.
  pose proof (steps_invariant ui_coupled step_ui_coupled s0 s Hsteps Hc0) as Hc.
  pose proof (steps_invariant led_idle step_led_idle s0 s Hsteps Hl0) as Hl.
  split; [exact Hc |]. split; [exact Hl |].
  unfold ui_coupled in Hc. rewrite ISR_TIMER0_closed. split.
  - intros Hu. rewrite Hu in Hc.
    assert (E : (if ui_timers s >? 0 then set_ui_timers (ui_timers s - 1) s else s)
                = set_ui_timers 0 s).
    { destruct Hc as [H | H]; rewrite H; cbn; [| reflexivity].
      destruct s; cbn in *; subst; reflexivity. }
    rewrite E. unfold exec. rewrite (ui_handler_input (set_ui_timers 0 s) Hu).
    reflexivity.
  - intros Hu. destruct (ui_state s); [| contradiction |]; rewrite Hc; reflexivity.
Qed.

Lemma input_window_never_stuck_witness :
  ui_coupled booted /\ led_idle booted /\
  steps booted (exec loop (exec ISR_INT0_vect booted)) /\
  ui_state (exec loop (exec ISR_INT0_vect booted)) = UI_INPUT /\
  ui_state (exec ui_handler
              (exec ISR_TIMER0_OVF_vect (exec loop (exec ISR_INT0_vect booted))))
    = UI_TIMEOUT.
Proof.
  assert (Hc : ui_coupled booted) by (vm_compute; reflexivity).
  assert (Hl : led_idle booted) by (intros _; vm_compute; reflexivity).
  assert (Hs : steps booted (exec loop (exec ISR_INT0_vect booted)))
    by (apply steps_loop, steps_press, steps_refl).
  assert (Hu : ui_state (exec loop (exec ISR_INT0_vect booted)) = UI_INPUT)
    by (vm_compute; reflexivity).
  split; [exact Hc |]. split; [exact Hl |]. split; [exact Hs |]. split; [exact Hu |].
  destruct (input_window_never_stuck booted _ Hc Hl Hs) as (_ & _ & H & _).
  exact (H Hu).
Defined.

(** ** What reaches the trace *)

Lemma step_trace_grows s s' :
  step s s' ->
  exists t, trace s' = trace s ++ t /\ Forall delay_is_floor t /\ sleep_count t = 0.
Proof.
  intros Hstep. destruct Hstep.
  - exists []. rewrite ISR_TIMER1_trace, app_nil_r. repeat split. constructor.
  - exists []. rewrite ISR_TIMER0_closed, app_nil_r.
    destruct (ui_timers s >? 0); repeat split; constructor.
  - exists [EvDelay (delay_ms_arg DEBOUNCE_MS)]. rewrite ISR_INT0_closed.
    destruct (sleeping s); repeat split; repeat constructor.
  - exists (blink_events (Z.to_nat n)).
    destruct (blink_effect n s) as (_ & Ht & _).
    split; [exact Ht |]. split; [apply blink_events_floor | apply sleep_count_blink_events].
  - unfold exec. rewrite run_state_handler_closed.
    destruct (desired_run_state s =? RUN_NO_STATE).
    { exists []. rewrite app_nil_r. repeat split. constructor. }
    cbv zeta. destruct (desired_run_state s =? RUN_OFF); cbn [snd].
    + exists [EvFanOff]. rewrite fan_off_exec. repeat split. repeat constructor.
    + exists [EvFanOn]. cbn [trace set_run_timers set_io]. rewrite fan_on_exec.
      repeat split. repeat constructor.
  - unfold exec. destruct (ui_state s) eqn:Hu.
    + rewrite (ui_handler_off s Hu).
      destruct (buffered_clicks s >? 0); cbn [snd].
      * exists [EvLedOn]. cbn [trace set_ui_timers set_io]. rewrite led_on_exec.
        repeat split. repeat constructor.
      * exists []. rewrite app_nil_r. repeat split. constructor.
    + rewrite (ui_handler_input s Hu).
      destruct (ui_timers s =? 0); cbn [snd];
        exists []; rewrite app_nil_r; repeat split; constructor.
    + destruct (ui_handler_timeout_effect s Hu) as (_ & _ & _ & _ & Ht & _).
      unfold exec in Ht. eexists. split; [exact Ht |].
      split.
      * constructor; [exact I | apply blink_events_floor].
      * change (EvLedOff :: ?t) with ([EvLedOff] ++ t).
        rewrite sleep_count_app, sleep_count_blink_events. reflexivity.
  - exists []. rewrite app_nil_r. destruct b.
    + rewrite maybe_sleep_active_closed. repeat split. constructor.
    + rewrite maybe_sleep_inactive_closed. repeat split. constructor.
Qed.

(** X8.  In every execution the trace only grows, every busy-wait added to it
    is the 5 ms floor (neither the debounce delay nor the blink delay ever
    uses the scaled duration [ms / PRESCALE]), and the core is never put to
    sleep. *)
Theorem trace_grows_by_floor_delays (s0 s : state) :
  steps s0 s ->
  exists t,
    trace s = trace s0 ++ t /\
    Forall delay_is_floor t /\
    sleep_count t = 0.
Proof.
  intros Hsteps. induction Hsteps as [s | s s' s'' _ IH Hst].
  - exists []. rewrite app_nil_r. repeat split. constructor.
  - destruct IH as (t1 & E1 & F1 & S1).
    destruct (step_trace_grows s' s'' Hst) as (t2 & E2 & F2 & S2).
    exists (t1 ++ t2). rewrite E2, E1, app_assoc.
    split; [reflexivity |]. split; [apply Forall_app; split; assumption |].
    rewrite sleep_count_app. lia.
Qed.

Lemma trace_grows_by_floor_delays_witness :
  steps booted (exec loop (exec ISR_INT0_vect booted)) /\
  exists t,
    trace (exec loop (exec ISR_INT0_vect booted)) = trace booted ++ t /\
    Forall delay_is_floor t /\ sleep_count t = 0.
Proof.
  assert (Hs : steps booted (exec loop (exec ISR_INT0_vect booted)))
    by (apply steps_loop, steps_press, steps_refl).
  split; [exact Hs |].
  exact (trace_grows_by_floor_delays booted _ Hs).
Defined.

(** ** How long a fan run lasts *)

Lemma fan_ticks_succ k s :
  exec (fan_ticks (S k)) s = exec (fan_ticks k) (exec ISR_TIMER1_OVF_vect s).
Proof. unfold fan_ticks. apply repeat_body_succ. Qed.

Lemma fan_ticks_effect k s :
  is_u8 (run_timers s) ->
  let s' := exec (fan_ticks k) s in
  run_timers s' = Z.max 0 (run_timers s - Z.of_nat k) /\
  desired_run_state s' =
    (if (0 <? run_timers s) && (run_timers s <=? Z.of_nat k) then RUN_OFF
     else desired_run_state s) /\
  current_run_state s' = current_run_state s /\
  io s' = io s.
Proof.
  cbv zeta. revert s. induction k as [| k IH]; intros s Hr.
  - change (exec (fan_ticks 0) s) with s. unfold is_u8 in Hr.
    split; [cbn; lia |]. split; [| split; reflexivity].
    destruct (Z.ltb_spec 0 (run_timers s)); cbn [andb]; [| reflexivity].
    destruct (Z.leb_spec (run_timers s) (Z.of_nat 0)); [cbn in *; lia | reflexivity].
  - rewrite fan_ticks_succ, (ISR_TIMER1_closed s Hr). unfold is_u8 in Hr.
    destruct (Z.gtb_spec (run_timers s) 0) as [Hpos | Hz].
    + destruct (Z.eqb_spec (run_timers s) 1) as [E1 | E1].
      * destruct (IH (set_desired_run_state RUN_OFF (set_run_timers 0 s)))
          as (Ht & Hd & Hc & Hio); [cbn; unfold is_u8; lia |].
        rewrite Ht, Hd, Hc, Hio. cbn [run_timers desired_run_state current_run_state
          io set_run_timers set_desired_run_state]. rewrite E1.
        split; [lia |]. split; [| split; reflexivity].
        change (0 <? 0) with false. cbn [andb].
        change (0 <? 1) with true. cbn [andb].
        destruct (Z.leb_spec 1 (Z.of_nat (S k))); [reflexivity | lia].
      * destruct (IH (set_run_timers (run_timers s - 1) s))
          as (Ht & Hd & Hc & Hio); [cbn; unfold is_u8; lia |].
        rewrite Ht, Hd, Hc, Hio. cbn [run_timers desired_run_state current_run_state
          io set_run_timers].
        split; [lia |]. split; [| split; reflexivity].
        destruct (Z.ltb_spec 0 (run_timers s - 1)); [| lia].
        destruct (Z.ltb_spec 0 (run_timers s)); [| lia]. cbn [andb].
        destruct (Z.leb_spec (run_timers s - 1) (Z.of_nat k));
          destruct (Z.leb_spec (run_timers s) (Z.of_nat (S k))); try lia; reflexivity.
    + destruct (IH s) as (Ht & Hd & Hc & Hio); [unfold is_u8; lia |].
      rewrite Ht, Hd, Hc, Hio.
      split; [lia |]. split; [| split; reflexivity].
      destruct (Z.ltb_spec 0 (run_timers s)); [lia | reflexivity].
Qed.

(** X9.  A fan run requested at level Short, Med or Long lasts exactly
    [RUN_TIMERS_INIT + RUN_TIMERS_MULTIPLIER * level_index] overflows of the
    fan timer, that is 20, 40 or 60: after fewer overflows a poll of the run
    state machine still finds the fan running, reports active and shows the
    remaining count; from that many overflows on, the poll switches the fan
    off, returns to [RUN_OFF] with a zero countdown and reports inactive. *)
Theorem fan_run_lasts_exactly (d : Z) (s : state) (k : nat) :
  on_state d ->
  desired_run_state s = d ->
  let T := RUN_TIMERS_INIT + RUN_TIMERS_MULTIPLIER * level_index d in
  let started := exec run_state_handler s in
  let ticked := exec (fan_ticks k) started in
  let polled := exec run_state_handler ticked in
  let active := eval run_state_handler ticked in
  run_timers started = T /\
  (Z.of_nat k < T ->
   active = true /\ fan_running polled = true /\
   current_run_state polled = d /\ run_timers polled = T - Z.of_nat k) /\
  (T <= Z.of_nat k ->
   active = false /\ fan_running polled = false /\
   current_run_state polled = RUN_OFF /\ run_timers polled = 0).
Proof.
  intros Hon Hd. cbv zeta.
  assert (HT : RUN_TIMERS_INIT + RUN_TIMERS_MULTIPLIER * level_index d = 20 \/
               RUN_TIMERS_INIT + RUN_TIMERS_MULTIPLIER * level_index d = 40 \/
               RUN_TIMERS_INIT + RUN_TIMERS_MULTIPLIER * level_index d = 60).
  { destruct Hon as [H | [H | H]]; rewrite H; auto. }
  set (T := RUN_TIMERS_INIT + RUN_TIMERS_MULTIPLIER * level_index d) in *.
  assert (Hne : d <> RUN_NO_STATE /\ d <> RUN_OFF /\ RUN_OFF < d).
  { destruct Hon as [H | [H | H]]; rewrite H; repeat split; discriminate. }
  destruct Hne as (Hn0 & Hn1 & Hgt).
  (* the poll that starts the run *)
  set (s1 := set_desired_run_state RUN_NO_STATE (set_current_run_state d s)).
  assert (Es : exec run_state_handler s =
               set_run_timers (u8 T) (set_io TCNT1 (u8 0) (exec fan_on s1))).
  { unfold exec. rewrite run_state_handler_closed, Hd.
    destruct (Z.eqb_spec d RUN_NO_STATE); [contradiction |].
    cbv zeta. destruct (Z.eqb_spec d RUN_OFF); [contradiction |]. reflexivity. }
  set (started := exec run_state_handler s) in *.
  assert (Hu8 : u8 T = T) by (apply u8_small; unfold is_u8; lia).
  assert (Rs : run_timers started = T) by (rewrite Es; exact Hu8).
  assert (Cs : current_run_state started = d) by (rewrite Es; reflexivity).
  assert (Ds : desired_run_state started = RUN_NO_STATE) by (rewrite Es; reflexivity).
  assert (Fs : fan_running started = true).
  { rewrite Es. destruct (fan_on_pins s1) as [F _]. exact F. }
  clearbody started. clear Es.
  (* the overflows *)
  destruct (fan_ticks_effect k started) as (Rt & Dt & Ct & Iot);
    [rewrite Rs; unfold is_u8; lia |].
  set (ticked := exec (fan_ticks k) started) in *.
  rewrite Rs, Ds in Dt. rewrite Rs in Rt. rewrite Cs in Ct.
  assert (Ft : fan_running ticked = true) by (unfold fan_running; rewrite Iot; exact Fs).
  clearbody ticked.
  split; [exact Rs |].
  unfold exec, eval. rewrite run_state_handler_closed.
  destruct (Z.ltb_spec 0 T) as [_ | HT0]; [| lia]. cbn [andb] in Dt.
  destruct (Z.leb_spec T (Z.of_nat k)) as [Hge | Hlt].
  - split; [intros Hk; lia |]. intros _.
    rewrite Dt. change (RUN_OFF =? RUN_NO_STATE) with false.
    change (RUN_OFF =? RUN_OFF) with true. cbv zeta. cbn [fst snd].
    destruct (fan_off_pins (set_run_timers 0
        (set_desired_run_state RUN_NO_STATE (set_current_run_state RUN_OFF ticked))))
      as [F _].
    split; [reflexivity |]. split; [exact F |]. split; reflexivity.
  - split; [| intros Hk; lia]. intros _.
    rewrite Dt. change (RUN_NO_STATE =? RUN_NO_STATE) with true. cbn [fst snd].
    rewrite Ct, Rt.
    split; [apply Z.gtb_lt; exact Hgt |]. split; [exact Ft |].
    split; [reflexivity | lia].
Qed.

Lemma fan_run_lasts_exactly_witness :
  on_state RUN_SHORT /\
  desired_run_state (set_desired_run_state RUN_SHORT booted) = RUN_SHORT /\
  fan_running
    (exec run_state_handler
       (exec (fan_ticks 19)
          (exec run_state_handler (set_desired_run_state RUN_SHORT booted)))) = true /\
  fan_running
    (exec run_state_handler
       (exec (fan_ticks 20)
          (exec run_state_handler (set_desired_run_state RUN_SHORT booted)))) = false.
Proof.
  assert (Hon : on_state RUN_SHORT) by (left; reflexivity).
  assert (Hd : desired_run_state (set_desired_run_state RUN_SHORT booted) = RUN_SHORT)
    by reflexivity.
  split; [exact Hon |]. split; [exact Hd |]. split.
  - destruct (fan_run_lasts_exactly RUN_SHORT _ 19 Hon Hd) as (_ & H & _).
    apply H. vm_compute. reflexivity.
  - destruct (fan_run_lasts_exactly RUN_SHORT _ 20 Hon Hd) as (_ & _ & H).
    apply H. vm_compute. discriminate.
Defined.

(** ** One iteration of the main loop *)

Lemma loop_unfold s :
  exec loop s =
    exec (maybe_sleep (eval run_state_handler s ||
                       eval ui_handler (exec run_state_handler s)))
      (exec ui_handler (exec run_state_handler s)).
Proof.
  unfold loop, exec, eval, bind.
  destruct (run_state_handler s) as [a1 s1]. cbn [fst snd].
  destruct (ui_handler s1) as [a2 s2]. reflexivity.
Qed.

Lemma maybe_sleep_counter b s :
  inactive_iterations (exec (maybe_sleep b) s) =
    (if b then 0 else u8 (inactive_iterations s + 1)) /\
  sleeping (exec (maybe_sleep b) s) = sleeping s.
Proof.
  destruct b.
  - rewrite maybe_sleep_active_closed. split; reflexivity.
  - rewrite maybe_sleep_inactive_closed. split; reflexivity.
Qed.

Lemma ui_handler_keeps_request s :
  ui_state s <> UI_TIMEOUT ->
  desired_run_state (exec ui_handler s) = desired_run_state s.
Proof.
  intros Hu. unfold exec. destruct (ui_state s) eqn:E; [| | contradiction].
  - rewrite (ui_handler_off s E). destruct (buffered_clicks s >? 0); reflexivity.
  - rewrite (ui_handler_input s E). destruct (ui_timers s =? 0); reflexivity.
Qed.

Lemma ui_handler_when_quiet s : ui_quiet s -> ui_handler s = (false, s).
Proof.
  intros [[Hu Hb] | [Hu Ht]].
  - rewrite (ui_handler_off s Hu).
    destruct (Z.gtb_spec (buffered_clicks s) 0); [lia | reflexivity].
  - rewrite (ui_handler_input s Hu).
    destruct (Z.eqb_spec (ui_timers s) 0); [contradiction | reflexivity].
Qed.

(** X10.  One iteration of [loop]: the inactivity counter becomes 0 if either
    state machine reported activity and the 8-bit successor of its value
    otherwise; a pending request is always consumed, so unless the input
    state machine resolves a window in this very iteration no request is
    left behind; and the iteration never sleeps.  With no request pending,
    the fan off and the input state machine quiet, the iteration changes
    nothing but that counter. *)
Theorem loop_iteration (s : state) :
  let s' := exec loop s in
  let active := eval run_state_handler s ||
                eval ui_handler (exec run_state_handler s) in
  inactive_iterations s' =
    (if active then 0 else u8 (inactive_iterations s + 1)) /\
  current_run_state s' =
    (if desired_run_state s =? RUN_NO_STATE then current_run_state s
     else desired_run_state s) /\
  (ui_state s <> UI_TIMEOUT -> desired_run_state s' = RUN_NO_STATE) /\
  sleeping s' = sleeping s /\
  sleep_count (trace s') = sleep_count (trace s) /\
  (desired_run_state s = RUN_NO_STATE -> current_run_state s <= RUN_OFF ->
   ui_quiet s ->
   s' = set_inactive_iterations (u8 (inactive_iterations s + 1)) s).
Proof.
  cbv zeta. rewrite loop_unfold.
  set (s1 := exec run_state_handler s).
  set (s2 := exec ui_handler s1).
  set (active := eval run_state_handler s || eval ui_handler s1).
  destruct (maybe_sleep_counter active s2) as (Hi & Hsl).
  destruct (maybe_sleep_globals active s2) as (Hc & Hd & _). cbv zeta in Hc, Hd.
  destruct (ui_handler_frame s1) as (_ & _ & Hsl2 & Hi2).
  destruct (ui_handler_globals s1) as (Hc2 & _ & _).
  destruct (run_state_handler_frame s) as (Hu1 & _ & _ & Hsl1 & Hi1).
  destruct (run_state_handler_globals s) as (_ & Hd1 & Hc1).
  cbv zeta in Hsl2, Hi2, Hc2, Hu1, Hsl1, Hi1, Hd1, Hc1.
  fold s1 in Hsl2, Hi2, Hc2, Hu1, Hsl1, Hi1, Hd1, Hc1. fold s2 in Hsl2, Hi2, Hc2.
  split; [rewrite Hi, Hi2, Hi1; reflexivity |].
  split; [rewrite Hc, Hc2, Hc1; reflexivity |].
  split.
  { intros Hu. rewrite Hd. unfold s2.
    rewrite ui_handler_keeps_request by (rewrite Hu1; exact Hu). exact Hd1. }
  split; [rewrite Hsl, Hsl2, Hsl1; reflexivity |].
  split.
  { rewrite (step_sleep_count s2 _ (step_maybe_sleep active s2)).
    unfold s2. rewrite (step_sleep_count s1 _ (step_ui_handler s1)).
    unfold s1. apply (step_sleep_count s _ (step_run_state_handler s)). }
  intros Hd0 Hc0 Hq.
  assert (E1 : run_state_handler s = (false, s)).
  { rewrite run_state_handler_closed, Hd0.
    change (RUN_NO_STATE =? RUN_NO_STATE) with true.
    destruct (Z.gtb_spec (current_run_state s) RUN_OFF); [lia | reflexivity]. }
  subst active s2 s1. unfold exec at 2 3 4, eval. rewrite E1. cbn [fst snd].
  rewrite (ui_handler_when_quiet s Hq). cbn [fst snd orb].
  apply maybe_sleep_inactive_closed.
Qed.

Lemma loop_iteration_witness :
  desired_run_state booted = RUN_NO_STATE /\
  current_run_state booted <= RUN_OFF /\
  ui_quiet booted /\
  exec loop booted = set_inactive_iterations 1 booted.
Proof.
  assert (Hd : desired_run_state booted = RUN_NO_STATE) by (vm_compute; reflexivity).
  assert (Hc : current_run_state booted <= RUN_OFF) by (vm_compute; discriminate).
  assert (Hq : ui_quiet booted)
    by (left; split; [vm_compute; reflexivity | vm_compute; discriminate]).
  split; [exact Hd |]. split; [exact Hc |]. split; [exact Hq |].
  destruct (loop_iteration booted) as (_ & _ & _ & _ & _ & H).
  exact (H Hd Hc Hq).
Defined.

(** ** Counting presses *)

Lemma presses_frame k s :
  let s' := exec (presses k) s in
  sleeping s' = sleeping s /\
  ui_state s' = ui_state s /\
  ui_timers s' = ui_timers s /\
  run_timers s' = run_timers s /\
  current_run_state s' = current_run_state s /\
  desired_run_state s' = desired_run_state s /\
  inactive_iterations s' = inactive_iterations s /\
  io s' = io s.
Proof.
  cbv zeta. revert s. induction k as [| k IH]; intros s.
  - change (exec (presses 0) s) with s. repeat split.
  - rewrite presses_succ.
    destruct (IH (exec ISR_INT0_vect s)) as (H1 & H2 & H3 & H4 & H5 & H6 & H7 & H8).
    rewrite H1, H2, H3, H4, H5, H6, H7, H8, ISR_INT0_closed.
    destruct (sleeping s) eqn:Hs; cbn; rewrite ?Hs; repeat split.
Qed.

Lemma presses_asleep k s :
  sleeping s = true ->
  buffered_clicks (exec (presses k) s) = buffered_clicks s.
Proof.
  revert s. induction k as [| k IH]; intros s Hs.
  - reflexivity.
  - rewrite presses_succ.
    assert (E : exec ISR_INT0_vect s = log (EvDelay (delay_ms_arg DEBOUNCE_MS)) s)
      by (rewrite ISR_INT0_closed, Hs; reflexivity).
    rewrite IH by (rewrite E; exact Hs). rewrite E. reflexivity.
Qed.

Lemma presses_trace k s :
  trace (exec (presses k) s) = trace s ++ repeat (EvDelay MIN_DELAY_MS) k.
Proof.
  revert s. induction k as [| k IH]; intros s.
  - change (exec (presses 0) s) with s. cbn [repeat]. rewrite app_nil_r. reflexivity.
  - rewrite presses_succ, IH, ISR_INT0_closed.
    destruct (sleeping s); cbn [trace log set_buffered_clicks repeat];
      rewrite <- app_assoc; reflexivity.
Qed.

(** X11.  [k] button edges in a row leave the click counter at
    [(buffered_clicks + k) mod 256] when the system is awake (so 256
    presses are indistinguishable from none) and unchanged when [sleeping]
    is set.  Each edge costs one 5 ms busy-wait, and the presses change
    nothing else: the UI state, both timers, the run states, the flag
    itself and every register stay as they were. *)
Theorem presses_counted_modulo_256 (k : nat) (s : state) :
  is_u8 (buffered_clicks s) ->
  let s' := exec (presses k) s in
  buffered_clicks s' =
    (if sleeping s then buffered_clicks s
     else (buffered_clicks s + Z.of_nat k) mod 256) /\
  trace s' = trace s ++ repeat (EvDelay MIN_DELAY_MS) k /\
  sleeping s' = sleeping s /\
  ui_state s' = ui_state s /\
  ui_timers s' = ui_timers s /\
  run_timers s' = run_timers s /\
  current_run_state s' = current_run_state s /\
  desired_run_state s' = desired_run_state s /\
  io s' = io s.
Proof.
  intros Hr. cbv zeta.
  destruct (presses_frame k s) as (H1 & H2 & H3 & H4 & H5 & H6 & _ & H8).
  split; [| split; [apply presses_trace | repeat split; assumption]].
  destruct (sleeping s) eqn:Hs.
  - apply presses_asleep. exact Hs.
  - destruct (presses_effect k s Hs Hr) as (Hb & _). exact Hb.
Qed.

Lemma presses_counted_modulo_256_witness :
  is_u8 (buffered_clicks booted) /\
  buffered_clicks (exec (presses 256) booted) = 0 /\
  buffered_clicks (exec (presses 3) (set_sleeping true booted)) = 0.
Proof.
  assert (H : is_u8 (buffered_clicks booted)) by closed_range.
  split; [exact H |]. split.
  - destruct (presses_counted_modulo_256 256 booted H) as (Hb & _). exact Hb.
  - assert (H' : is_u8 (buffered_clicks (set_sleeping true booted))) by closed_range.
    destruct (presses_counted_modulo_256 3 (set_sleeping true booted) H') as (Hb & _).
    rewrite Hb. vm_compute. reflexivity.
Defined.

(** ** [main] with no interrupt *)

Lemma boot_state regs :
  let b := exec boot (power_on regs) in
  desired_run_state b = RUN_NO_STATE /\
  current_run_state b = RUN_OFF /\
  ui_state b = UI_OFF /\
  buffered_clicks b = 0 /\
  inactive_iterations b = 0 /\
  run_timers b = 0 /\
  ui_timers b = -1 /\
  sleeping b = false /\
  trace b = blink_events 5 /\
  led_lit b = false.
Proof.
  cbv zeta. unfold boot. rewrite exec_seq.
  destruct (blink_effect 5 (exec init (power_on regs)))
    as ((G1 & G2 & G3 & G4 & G5 & G6 & G7 & G8) & T & L & _).
  rewrite G1, G2, G3, G4, G5, G6, G7, G8, T, L.
  repeat split.
Qed.

Lemma idle_loop_once s :
  desired_run_state s = RUN_NO_STATE ->
  current_run_state s = RUN_OFF ->
  ui_state s = UI_OFF ->
  buffered_clicks s = 0 ->
  exec loop s = set_inactive_iterations (u8 (inactive_iterations s + 1)) s.
Proof.
  intros Hd Hc Hu Hb.
  assert (E1 : run_state_handler s = (false, s)).
  { rewrite run_state_handler_closed, Hd, Hc. reflexivity. }
  assert (E2 : ui_handler s = (false, s)).
  { apply ui_handler_when_quiet. left. split; [exact Hu | lia]. }
  rewrite loop_unfold. unfold exec at 2 3 4, eval. rewrite E1. cbn [fst snd].
  rewrite E2. cbn [fst snd orb]. apply maybe_sleep_inactive_closed.
Qed.

Lemma idle_loops n s :
  desired_run_state s = RUN_NO_STATE ->
  current_run_state s = RUN_OFF ->
  ui_state s = UI_OFF ->
  buffered_clicks s = 0 ->
  exec (repeat_body (S n) loop) s =
    set_inactive_iterations (u8 (inactive_iterations s + Z.of_nat (S n))) s.
Proof.
  revert s. induction n as [| n IH]; intros s Hd Hc Hu Hb.
  - rewrite repeat_body_succ.
    change (exec (repeat_body 0 loop) (exec loop s)) with (exec loop s).
    apply idle_loop_once; assumption.
  - rewrite repeat_body_succ, (idle_loop_once s Hd Hc Hu Hb).
    rewrite IH by assumption.
    cbn [inactive_iterations set_inactive_iterations].
    unfold set_inactive_iterations. cbn.
    f_equal. unfold u8. rewrite Z.add_mod_idemp_l by lia. f_equal. lia.
Qed.

Lemma boot_fan regs :
  fan_running (exec boot (power_on regs)) = Z.testbit (regs PORTB) FAN_PIN.
Proof.
  unfold boot. rewrite exec_seq.
  destruct (blink_effect 5 (exec init (power_on regs))) as (_ & _ & _ & F).
  rewrite F. reflexivity.
Qed.

(** X12.  With no interrupt at all, [main] blinks five times and then idles for
    ever: after [n] iterations of its loop the state is the one [boot] left
    (run state [RUN_OFF], no request, UI at rest, LED dark, five blinks on
    the trace) except that [inactive_iterations] holds [n mod 256].  The
    fan pin keeps the level the power-on contents of [PORTB] gave it, as
    neither [init] nor an idle loop writes it: low for the cleared port.
    The counter passes 255 and starts again from 0 without the core ever
    being put to sleep. *)
Theorem main_idles_without_interrupts (regs : ioreg -> Z) (n : nat) :
  let s := exec (main_upto n) (power_on regs) in
  s = set_inactive_iterations (Z.of_nat n mod 256) (exec boot (power_on regs)) /\
  inactive_iterations s = Z.of_nat n mod 256 /\
  current_run_state s = RUN_OFF /\
  desired_run_state s = RUN_NO_STATE /\
  ui_state s = UI_OFF /\
  led_lit s = false /\
  fan_running s = Z.testbit (regs PORTB) FAN_PIN /\
  fan_running (exec (main_upto n) (power_on cleared_regs)) = false /\
  trace s = blink_events 5 /\
  led_on_count (trace s) = 5 /\
  sleep_count (trace s) = 0.
Proof.
  cbv zeta.
  assert (Hfan : forall r,
            fan_running (exec (main_upto n) (power_on r)) = Z.testbit (r PORTB) FAN_PIN).
  { intros r.
    assert (Er : exec (main_upto n) (power_on r) =
                 exec (repeat_body n loop) (exec boot (power_on r))).
    { unfold main_upto, boot. rewrite !exec_seq. reflexivity. }
    rewrite Er, <- boot_fan. clear Er.
    destruct (boot_state r) as (Hd & Hc & Hu & Hb & _).
    generalize dependent (exec boot (power_on r)). intros b Hd Hc Hu Hb.
    destruct n as [| n]; [reflexivity |].
    rewrite (idle_loops n b Hd Hc Hu Hb). reflexivity. }
  pose proof (Hfan regs) as Hf.
  pose proof (Hfan cleared_regs) as Hf0.
  change (Z.testbit (cleared_regs PORTB) FAN_PIN) with false in Hf0.
  clear Hfan. revert Hf Hf0.
  generalize (fan_running (exec (main_upto n) (power_on cleared_regs))).
  intros f0.
  assert (Eb : exec (main_upto n) (power_on regs) =
               exec (repeat_body n loop) (exec boot (power_on regs))).
  { unfold main_upto, boot. rewrite !exec_seq. reflexivity. }
  rewrite Eb. clear Eb.
  destruct (boot_state regs) as (Hd & Hc & Hu & Hb & Hi & Hr & Ht & Hsl & Htr & Hl).
  generalize dependent (exec boot (power_on regs)). intros b Hd Hc Hu Hb Hi Hr Ht Hsl Htr Hl.
  assert (E : exec (repeat_body n loop) b =
              set_inactive_iterations (Z.of_nat n mod 256) b).
  { destruct n as [| n].
    - change (exec (repeat_body 0 loop) b) with b.
      destruct b; cbn in *; subst; reflexivity.
    - rewrite (idle_loops n b Hd Hc Hu Hb), Hi. reflexivity. }
  rewrite E. intros Hf Hf0. split; [reflexivity |].
  cbn [inactive_iterations current_run_state desired_run_state ui_state trace
       set_inactive_iterations].
  change (led_lit (set_inactive_iterations (Z.of_nat n mod 256) b)) with (led_lit b).
  rewrite Htr. repeat split; try assumption; reflexivity.
Qed.

(** ** Who drives the outputs *)

(** X13.  No interrupt handler writes a register, so none of them can change
    the fan or LED line; the input state machine never changes the fan
    line, the run state machine never changes the LED line, and the power
    policy, which never gets to sleep, writes no register either. *)
Theorem outputs_have_one_owner (s : state) (b : bool) :
  io (exec ISR_TIMER1_OVF_vect s) = io s /\
  io (exec ISR_TIMER0_OVF_vect s) = io s /\
  io (exec ISR_INT0_vect s) = io s /\
  io (exec (maybe_sleep b) s) = io s /\
  fan_running (exec ui_handler s) = fan_running s /\
  led_lit (exec run_state_handler s) = led_lit s.
Proof.
  destruct (ISR_TIMER1_frame s) as (_ & H1 & _).
  destruct (ui_handler_frame s) as (_ & Hf & _).
  destruct (run_state_handler_frame s) as (_ & _ & Hl & _).
  split; [exact H1 |].
  split; [rewrite ISR_TIMER0_closed; destruct (ui_timers s >? 0); reflexivity |].
  split; [rewrite ISR_INT0_closed; destruct (sleeping s); reflexivity |].
  split; [| split; [exact Hf | exact Hl]].
  destruct b; [rewrite maybe_sleep_active_closed | rewrite maybe_sleep_inactive_closed];
    reflexivity.
Qed.

(** ** From presses to a fan run *)

(** X14.  The presses of one input window, followed by the poll that resolves
    them and the next poll of the run state machine: one press alone stops
    the fan whatever it was doing ([RUN_OFF], countdown 0); [N] presses with
    [1 < N <= 255] start it at level [min (N - 1) 3] with a countdown of 20
    times that level. *)
Theorem presses_select_fan_run (k1 k2 k3 k4 : nat) (s : state) :
  ui_idle s ->
  (1 <= k1)%nat ->
  (k1 + k2 + k3 + k4 <= 255)%nat ->
  let N := Z.of_nat (k1 + k2 + k3 + k4) in
  let resolved := exec ui_handler (exec (window_until_timeout k1 k2 k3 k4) s) in
  let s' := exec run_state_handler resolved in
  desired_run_state s' = RUN_NO_STATE /\
  (N = 1 ->
   current_run_state s' = RUN_OFF /\ fan_running s' = false /\ run_timers s' = 0) /\
  (1 < N ->
   current_run_state s' = RUN_SHORT + (Z.min (N - 1) 3 - 1) /\
   fan_running s' = true /\
   run_timers s' = RUN_TIMERS_MULTIPLIER * Z.min (N - 1) 3).
Proof.
  intros Hidle H1 HN. cbv zeta.
  destruct (window_until_timeout_effect k1 k2 k3 k4 s Hidle H1 HN) as (Hu & Hb).
  set (pre := exec (window_until_timeout k1 k2 k3 k4) s) in *. clearbody pre.
  assert (Hr : is_u8 (buffered_clicks pre)) by (rewrite Hb; unfold is_u8; lia).
  destruct (ui_handler_resolves pre Hu Hr) as (Hres & _).
  rewrite Hb in Hres. unfold resolves_as in Hres.
  set (resolved := exec ui_handler pre) in *. clearbody resolved.
  set (N := Z.of_nat (k1 + k2 + k3 + k4)) in *.
  assert (HN1 : 1 <= N <= 255) by (unfold N; lia). clearbody N.
  unfold exec. rewrite run_state_handler_closed.
  destruct (Z.gtb_spec N 1) as [Hgt | Hle]; cbv zeta in Hres; destruct Hres as (Hd & _).
  - assert (Hm : Z.min (N - 1) 3 = 1 \/ Z.min (N - 1) 3 = 2 \/ Z.min (N - 1) 3 = 3) by lia.
    rewrite Hd.
    destruct (Z.eqb_spec (RUN_SHORT + (Z.min (N - 1) 3 - 1)) RUN_NO_STATE) as [E | _];
      [unfold RUN_SHORT, RUN_NO_STATE in E; lia |].
    cbv zeta.
    destruct (Z.eqb_spec (RUN_SHORT + (Z.min (N - 1) 3 - 1)) RUN_OFF) as [E | _];
      [unfold RUN_SHORT, RUN_OFF in E; lia |].
    cbn [snd].
    split; [reflexivity |]. split; [intros E; lia |]. intros _.
    split; [reflexivity |]. split.
    + unfold fan_running. cbn [io set_run_timers set_io ioreg_eqb].
      apply fan_on_pins.
    + cbn [run_timers set_run_timers].
      unfold RUN_TIMERS_INIT, RUN_TIMERS_MULTIPLIER, RUN_SHORT.
      destruct Hm as [E | [E | E]]; rewrite E; reflexivity.
  - rewrite Hd. change (RUN_OFF =? RUN_NO_STATE) with false.
    change (RUN_OFF =? RUN_OFF) with true. cbv zeta. cbn [snd].
    split; [reflexivity |]. split; [| intros E; lia]. intros _.
    split; [reflexivity |]. split; [apply fan_off_pins | reflexivity].
Qed.

Lemma presses_select_fan_run_witness :
  ui_idle booted /\
  fan_running
    (exec run_state_handler
       (exec ui_handler (exec (window_until_timeout 1 3 0 0) booted))) = true /\
  run_timers
    (exec run_state_handler
       (exec ui_handler (exec (window_until_timeout 1 3 0 0) booted))) = 60.
Proof.
  assert (Hi : ui_idle booted) by (repeat split).
  assert (HN : (1 + 3 + 0 + 0 <= 255)%nat) by (cbn; lia).
  split; [exact Hi |].
  destruct (presses_select_fan_run 1 3 0 0 booted Hi (le_n 1) HN) as (_ & _ & H).
  destruct H as (_ & Hf & Hr); [reflexivity |].
  split; [exact Hf | exact Hr].
Defined.

(** ** Closed instances *)

Lemma init_effect_witness :
  0 <= 6 < 8 /\
  Z.testbit (io (exec init (power_on cleared_regs)) GIMSK) 6 = true /\
  Z.testbit (io (exec init (power_on cleared_regs)) SREG) 6 = false.
Proof.
  assert (H : 0 <= 6 < 8) by lia.
  split; [exact H |].
  destruct (init_effect (power_on cleared_regs)) as (_ & _ & _ & Hbits).
  destruct (Hbits 6 H) as (Hg & Hs & _).
  split; [exact Hg | exact Hs].
Defined.

Lemma sleep_effect_witness :
  PORTB <> MCUCR /\
  io (exec sleep booted) PORTB = io booted PORTB /\
  sleeping (exec sleep booted) = false.
Proof.
  assert (H : PORTB <> MCUCR) by discriminate.
  split; [exact H |].
  destruct (sleep_effect booted) as (Hs & _ & _ & Hio & _).
  split; [exact (Hio PORTB H) | exact Hs].
Defined.

(** ** The click counter at its maximum *)

Lemma reachable_presses k s : reachable s -> reachable (exec (presses k) s).
Proof.
  revert s. induction k as [| k IH]; intros s Hr.
  - exact Hr.
  - rewrite presses_succ. apply IH.
    eapply reachable_step; [exact Hr | apply step_int0].
Qed.

(** C9, as stated, fails when the counter is full.  After 255 presses the
    system, awake, holds [buffered_clicks = 255]; the next button edge
    stores 0, so the counter has not grown by one although [sleeping] is
    false. *)
Lemma int0_wraps_at_255 :
  reachable (exec (presses 255) booted) /\
  buffered_clicks (exec (presses 255) booted) = 255 /\
  sleeping (exec (presses 255) booted) = false /\
  buffered_clicks (exec ISR_INT0_vect (exec (presses 255) booted)) = 0 /\
  ~ (buffered_clicks (exec ISR_INT0_vect (exec (presses 255) booted)) =
       buffered_clicks (exec (presses 255) booted) + 1 <->
     sleeping (exec (presses 255) booted) = false).
Proof.
  assert (Hb : buffered_clicks (exec (presses 255) booted) = 255)
    by (vm_compute; reflexivity).
  assert (Hs : sleeping (exec (presses 255) booted) = false)
    by (vm_compute; reflexivity).
  assert (Hb' : buffered_clicks (exec ISR_INT0_vect (exec (presses 255) booted)) = 0)
    by (vm_compute; reflexivity).
  split; [apply reachable_presses, reachable_booted |].
  split; [exact Hb |]. split; [exact Hs |]. split; [exact Hb' |].
  rewrite Hb, Hb', Hs. intros [_ H]. specialize (H eq_refl). discriminate H.
Qed.
